(** * mongo_gen: the generic document helpers of package [mongoDB]

    The package is a thin layer over the MongoDB Go driver.  Every exported
    function opens a ten-second context, issues one or a few driver calls and
    hands the driver's answer back.  The development below embeds the nine
    functions of [mongoDB/mongo.go] as programs over the driver calls they
    issue, runs them against an arbitrary driver (a handler of the calls over
    some world) and, where a property speaks about what the service answers,
    against a reference in-memory document service. *)

From stdpp Require Import gmap strings list.
From Stdlib Require Import Sorted.
From Stdlib Require Import ZArith Lia.

Set Default Proof Using "Type".

(** ** BSON values *)

(** [primitive.ObjectID] is a [[12]byte]; it is kept as the 96-bit number
    the bytes spell.  The zero value is [NilObjectID]. *)
Definition ObjectID := Z.
Definition NilObjectID : ObjectID := 0%Z.

(** What a stored document holds in a field. *)
Inductive Scalar :=
| SOid (id : ObjectID)
| SInt (n : Z)
| SStr (s : string).

#[global] Instance Scalar_eq_dec : EqDecision Scalar.
Proof. solve_decision. Defined.

(** A document as the service stores it: an ordered list of fields. *)
Definition Raw := list (string * Scalar).

(** An [interface{}] holding a [T], or nil. *)
Inductive Any (T : Type) :=
| nil_iface
| box (v : T).
Arguments nil_iface {T}.
Arguments box {T} v.

(** The dynamic values the helpers and their callers put in a [bson.D] or a
    [bson.M]: an identifier, a number, a string, or a whole document of the
    helper's type parameter (the operand of [$set]). *)
Inductive Value (T : Type) :=
| VObjectID (id : ObjectID)
| VInt (n : Z)
| VString (s : string)
| VDoc (d : T).
Arguments VObjectID {T} id.
Arguments VInt {T} n.
Arguments VString {T} s.
Arguments VDoc {T} d.

(** [bson.D]: an ordered list of key/value elements.
    [bson.M]: an unordered Go map from keys to values. *)
Definition bsonD (T : Type) := list (string * Value T).
Abbreviation bsonM T := (gmap string (Value T)).

(** ** Contexts, errors, handles *)

(** [time.Duration] counts nanoseconds. *)
Definition Duration := Z.
Definition Nanosecond : Duration := 1%Z.
Definition Microsecond : Duration := (1000 * Nanosecond)%Z.
Definition Millisecond : Duration := (1000 * Microsecond)%Z.
Definition Second : Duration := (1000 * Millisecond)%Z.

(** A [context.Context]: the background context, or a scope with a deadline
    derived from a parent by [context.WithTimeout]. *)
Inductive Ctx :=
| Background
| Scope (id : nat) (parent : Ctx) (timeout : Duration).

#[global] Instance Ctx_eq_dec : EqDecision Ctx.
Proof. solve_decision. Defined.

(** Go's [error] values as the driver reports them.  The helpers never look
    inside an error. *)
Inductive error :=
| DeadlineExceeded
| ErrNoDocuments
| ErrEmptySlice
| ErrNilDocument
| ErrClientDisconnected
| ServerSelectionError
| WriteException (code : Z)
| CommandError (code : Z)
| DecodeError (field : string).

#[global] Instance error_eq_dec : EqDecision error.
Proof. solve_decision. Defined.

Record Client := { client_id : nat; client_uri : string }.
Record Database := { db_client : Client; db_name : string }.
Record Collection := { coll_db : Database; coll_name : string }.

#[global] Instance Client_eq_dec : EqDecision Client.
Proof. solve_decision. Defined.

(** [client.Database(name)], [db.Client()], [db.Collection(name)]: handle
    constructors and accessors, no traffic. *)
Definition Client_Database (cl : Client) (name : string) : Database :=
  {| db_client := cl; db_name := name |}.
Definition Database_Client (db : Database) : Client := db_client db.
Definition Database_Collection (db : Database) (name : string) : Collection :=
  {| coll_db := db; coll_name := name |}.

(** [type MongoHandler struct { DB *mongo.Database }] *)
Record MongoHandler := { DB : Database }.

(** Options structures, with the setters the helpers use. *)
Record ClientOptions := { co_uri : option string }.
Definition options_Client : ClientOptions := {| co_uri := None |}.
Definition ApplyURI (url : string) (o : ClientOptions) : ClientOptions :=
  {| co_uri := Some url |}.

Record CreateIndexesOptions := { cio_MaxTime : option Duration }.
Definition options_CreateIndexes : CreateIndexesOptions := {| cio_MaxTime := None |}.
Definition SetMaxTime (d : Duration) (o : CreateIndexesOptions) : CreateIndexesOptions :=
  {| cio_MaxTime := Some d |}.

Record UpdateOptions := { uo_Upsert : option bool }.

(** Acknowledgements of the service. *)
Record InsertOneResult := { InsertedID : Scalar }.
Record InsertManyResult := { InsertedIDs : list Scalar }.
Record UpdateResult := {
  MatchedCount : Z;
  ModifiedCount : Z;
  UpsertedCount : Z;
  UpsertedID : option Scalar }.
Record DeleteResult := { DeletedCount : Z }.

(** [*mongo.SingleResult] and [*mongo.Cursor], opaque to the helpers. *)
Record SingleResult := { sr_err : option error; sr_raw : Raw }.
Record Cursor := { cursor_id : nat; cursor_batch : list Raw }.

(** The constraint of the type parameter:
    [type Document interface { GetID() primitive.ObjectID }]. *)
Class Document (T : Type) := { GetID : T -> ObjectID }.

Section Helpers.
Context {T : Type} `{Document T}.

Record IndexModel := { Keys : bsonD T }.

Record DeleteOptions := { do_Hint : option (bsonD T) }.
Definition options_Delete : DeleteOptions := {| do_Hint := None |}.
Definition SetHint (h : bsonD T) (o : DeleteOptions) : DeleteOptions :=
  {| do_Hint := Some h |}.

Record FindOptions := {
  fo_Sort : option (bsonD T);
  fo_Skip : option Z;
  fo_Limit : option Z }.
Definition options_Find : FindOptions :=
  {| fo_Sort := None; fo_Skip := None; fo_Limit := None |}.
Definition SetSort (s : bsonD T) (o : FindOptions) : FindOptions :=
  {| fo_Sort := Some s; fo_Skip := fo_Skip o; fo_Limit := fo_Limit o |}.
Definition SetSkip (n : Z) (o : FindOptions) : FindOptions :=
  {| fo_Sort := fo_Sort o; fo_Skip := Some n; fo_Limit := fo_Limit o |}.
Definition SetLimit (n : Z) (o : FindOptions) : FindOptions :=
  {| fo_Sort := fo_Sort o; fo_Skip := fo_Skip o; fo_Limit := Some n |}.

(** A filter argument is an [interface{}]: the helpers pass a [bson.D]
    everywhere but in [DeleteOne], which passes a [bson.M]. *)
Inductive Filter :=
| FilterD (d : bsonD T)
| FilterM (m : bsonM T).

(** ** Driver calls

    One constructor per call of the driver or of package [context] that the
    helpers make, with the arguments they pass.  [client.Ping(ctx, nil)] is
    always called with a nil read preference, which is left out;
    [collection.Indexes().CreateOne], [collection.FindOne(...).Decode] and
    the methods of the cursor are calls of their own. *)
Inductive Call :=
| Ctx_WithTimeout (parent : Ctx) (d : Duration)
| Ctx_cancel (c : Ctx)
| Mongo_Connect (c : Ctx) (o : ClientOptions)
| Client_Ping (c : Ctx) (cl : Client)
| Client_Disconnect (c : Ctx) (cl : Client)
| Indexes_CreateOne (c : Ctx) (coll : Collection) (m : IndexModel)
    (o : CreateIndexesOptions)
| Coll_InsertOne (c : Ctx) (coll : Collection) (doc : Any T)
| Coll_InsertMany (c : Ctx) (coll : Collection) (docs : list (Any T))
| Coll_UpdateOne (c : Ctx) (coll : Collection) (filter : Filter)
    (update : bsonD T) (o : list UpdateOptions)
| Coll_FindOne (c : Ctx) (coll : Collection) (filter : Filter)
| SingleResult_Decode (sr : SingleResult)
| Coll_DeleteOne (c : Ctx) (coll : Collection) (filter : Filter)
    (o : DeleteOptions)
| Coll_Find (c : Ctx) (coll : Collection) (filter : Filter) (o : FindOptions)
| Cursor_All (c : Ctx) (cur : Cursor)
| Cursor_Close (c : Ctx) (cur : Cursor).

(** What each call hands back.  [mongo.Connect] and [Collection.Find] return
    a usable pointer exactly when their error is nil, hence a sum; the write
    calls return a result pointer and an error side by side, and the helpers
    pass the pair on untouched; [Decode] and [All] write through the pointer
    they are given and return an error. *)
Definition Reply (c : Call) : Type :=
  match c with
  | Ctx_WithTimeout _ _ => Ctx
  | Ctx_cancel _ => unit
  | Mongo_Connect _ _ => (error + Client)%type
  | Client_Ping _ _ => option error
  | Client_Disconnect _ _ => option error
  | Indexes_CreateOne _ _ _ _ => (string * option error)%type
  | Coll_InsertOne _ _ _ => (option InsertOneResult * option error)%type
  | Coll_InsertMany _ _ _ => (option InsertManyResult * option error)%type
  | Coll_UpdateOne _ _ _ _ _ => (option UpdateResult * option error)%type
  | Coll_FindOne _ _ _ => SingleResult
  | SingleResult_Decode _ => (T * option error)%type
  | Coll_DeleteOne _ _ _ _ => (option DeleteResult * option error)%type
  | Coll_Find _ _ _ _ => (error + Cursor)%type
  | Cursor_All _ _ => (list T * option error)%type
  | Cursor_Close _ _ => option error
  end.

(** ** Programs over driver calls *)

Inductive Prog (A : Type) : Type :=
| Ret (a : A)
| Do (c : Call) (k : Reply c -> Prog A).
Arguments Ret {A} a.
Arguments Do {A} c k.

Fixpoint bind {A B : Type} (p : Prog A) (f : A -> Prog B) : Prog B :=
  match p with
  | Ret a => f a
  | Do c k => Do c (fun r => bind (k r) f)
  end.

Definition call (c : Call) : Prog (Reply c) := Do c Ret.

#[global] Instance Prog_ret : MRet Prog := @Ret.
#[global] Instance Prog_bind : MBind Prog := fun A B f p => bind p f.

(** [defer d] followed by the rest of the function: the rest runs to its
    return value, then the deferred call runs, then the function returns. *)
Definition defer {A : Type} (d : Call) (rest : Prog A) : Prog A :=
  r ← rest; _ ← call d; mret r.

(** A driver: what each call answers in a world, and the world after it. *)
Definition Handler (W : Type) := forall c : Call, W -> Reply c * W.

(** One entry of the log of a run: the call and its answer. *)
Definition Entry := { c : Call & Reply c }.
Definition entry (c : Call) (r : Reply c) : Entry := existT c r.

Fixpoint run {W A : Type} (h : Handler W) (p : Prog A) (w : W)
  : A * W * list Entry :=
  match p with
  | Ret a => (a, w, [])
  | Do c k =>
      let (r, w1) := h c w in
      let '(a, w2, tr) := run h (k r) w1 in
      (a, w2, entry c r :: tr)
  end.

Definition result_of {W A : Type} (x : A * W * list Entry) : A := x.1.1.
Definition world_of {W A : Type} (x : A * W * list Entry) : W := x.1.2.
Definition trace_of {W A : Type} (x : A * W * list Entry) : list Entry := x.2.

(** ** The helpers of [mongoDB/mongo.go] *)

(** [func NewMongoHandler(dbName, url string)], returning a handler pointer
    and an error. *)
Definition NewMongoHandler (dbName url : string)
  : Prog (option MongoHandler * option error) :=
  ctx ← call (Ctx_WithTimeout Background (10 * Second)%Z);
  defer (Ctx_cancel ctx) (
    let opts := ApplyURI url options_Client in
    r ← call (Mongo_Connect ctx opts);
    match r with
    | inl err => mret (None, Some err)
    | inr client =>
        err ← call (Client_Ping ctx client);
        match err with
        | Some e => mret (None, Some e)
        | None => mret (Some {| DB := Client_Database client dbName |}, None)
        end
    end).

(** [CreateIndex(db, collectionName, model) error] *)
Definition CreateIndex (db : Database) (collectionName : string)
  (model : bsonD T) : Prog (option error) :=
  ctx ← call (Ctx_WithTimeout Background (10 * Second)%Z);
  defer (Ctx_cancel ctx) (
    let indexOpts := SetMaxTime (Second * 10)%Z options_CreateIndexes in
    let collection := Database_Collection db collectionName in
    let indexModel := {| Keys := model |} in
    '(_, err) ← call (Indexes_CreateOne ctx collection indexModel indexOpts);
    mret err).

(** [SaveOne[T Document](db, collectionName, doc T)] *)
Definition SaveOne (db : Database) (collectionName : string) (doc : T)
  : Prog (option InsertOneResult * option error) :=
  ctx ← call (Ctx_WithTimeout Background (10 * Second)%Z);
  defer (Ctx_cancel ctx) (
    let collection := Database_Collection db collectionName in
    call (Coll_InsertOne ctx collection (box doc))).

(** The loop of [SaveMany]: [for i, doc := range docs { interfaces[i] = doc }],
    started at index [i] on the documents still to visit. *)
Fixpoint fill_interfaces (i : nat) (docs : list T) (interfaces : list (Any T))
  : list (Any T) :=
  match docs with
  | [] => interfaces
  | doc :: rest => fill_interfaces (S i) rest (<[i := box doc]> interfaces)
  end.

(** [interfaces := make([]interface{}, len(docs))] and the loop over it. *)
Definition to_interfaces (docs : list T) : list (Any T) :=
  fill_interfaces 0%nat docs (replicate (length docs) nil_iface).

(** [SaveMany[T Document](db, collectionName, docs []T)] *)
Definition SaveMany (db : Database) (collectionName : string) (docs : list T)
  : Prog (option InsertManyResult * option error) :=
  let interfaces := to_interfaces docs in
  ctx ← call (Ctx_WithTimeout Background (10 * Second)%Z);
  defer (Ctx_cancel ctx) (
    let collection := Database_Collection db collectionName in
    call (Coll_InsertMany ctx collection interfaces)).

(** [UpdateOne[T Document](db, collectionName, doc T)] *)
Definition UpdateOne (db : Database) (collectionName : string) (doc : T)
  : Prog (option UpdateResult * option error) :=
  ctx ← call (Ctx_WithTimeout Background (10 * Second)%Z);
  defer (Ctx_cancel ctx) (
    let collection := Database_Collection db collectionName in
    call (Coll_UpdateOne ctx collection
            (FilterD [("_id", VObjectID (GetID doc))])
            [("$set", VDoc doc)]
            [])).

(** [FindOne[T Document](db, collectionName, filter bson.D)], returning a
    pointer to the decoded document and an error. *)
Definition FindOne (db : Database) (collectionName : string)
  (filter : bsonD T) : Prog (option T * option error) :=
  ctx ← call (Ctx_WithTimeout Background (10 * Second)%Z);
  defer (Ctx_cancel ctx) (
    let collection := Database_Collection db collectionName in
    sr ← call (Coll_FindOne ctx collection (FilterD filter));
    '(result, err) ← call (SingleResult_Decode sr);
    match err with
    | Some e => mret (None, Some e)
    | None => mret (Some result, None)
    end).

(** [DeleteOne[T Document](db, collectionName, id primitive.ObjectID)] *)
Definition DeleteOne (db : Database) (collectionName : string)
  (id : ObjectID) : Prog (option DeleteResult * option error) :=
  ctx ← call (Ctx_WithTimeout Background (10 * Second)%Z);
  defer (Ctx_cancel ctx) (
    let collection := Database_Collection db collectionName in
    let opts := SetHint [("_id", VInt 1)] options_Delete in
    call (Coll_DeleteOne ctx collection
            (FilterM {[ "_id" := VObjectID id ]}) opts)).

(** [Find[T Document](db, collectionName, sortModel, filter, skip, limit)],
    returning a pointer to the slice of decoded documents and an error. *)
Definition Find (db : Database) (collectionName : string)
  (sortModel filter : bsonD T) (skip limit : Z)
  : Prog (option (list T) * option error) :=
  ctx ← call (Ctx_WithTimeout Background (10 * Second)%Z);
  defer (Ctx_cancel ctx) (
    let opts := SetLimit limit (SetSkip skip (SetSort sortModel options_Find)) in
    let collection := Database_Collection db collectionName in
    r ← call (Coll_Find ctx collection (FilterD filter) opts);
    match r with
    | inl err => mret (None, Some err)
    | inr cursor =>
        defer (Cursor_Close ctx cursor) (
          '(results, err) ← call (Cursor_All ctx cursor);
          match err with
          | Some e => mret (None, Some e)
          | None => mret (Some results, None)
          end)
    end).

(** [Close], the method of the handler: [h.DB.Client().Disconnect(ctx)]. *)
Definition Close (h : MongoHandler) : Prog (option error) :=
  ctx ← call (Ctx_WithTimeout Background (10 * Second)%Z);
  defer (Ctx_cancel ctx) (
    call (Client_Disconnect ctx (Database_Client (DB h)))).

End Helpers.

Arguments Call T : clear implicits.
Arguments Prog T A : clear implicits.
Arguments Handler T W : clear implicits.
Arguments Entry T : clear implicits.
Arguments Filter T : clear implicits.
Arguments IndexModel T : clear implicits.
Arguments DeleteOptions T : clear implicits.
Arguments FindOptions T : clear implicits.

(** ** Reading a log *)

Inductive Kind :=
| KWithTimeout | KCancel | KConnect | KPing | KDisconnect | KCreateOne
| KInsertOne | KInsertMany | KUpdateOne | KFindOne | KDecode | KDeleteOne
| KFind | KAll | KCursorClose.

#[global] Instance Kind_eq_dec : EqDecision Kind.
Proof. solve_decision. Defined.

Section Log.
Context {T : Type}.

Definition call_kind (c : Call T) : Kind :=
  match c with
  | Ctx_WithTimeout _ _ => KWithTimeout
  | Ctx_cancel _ => KCancel
  | Mongo_Connect _ _ => KConnect
  | Client_Ping _ _ => KPing
  | Client_Disconnect _ _ => KDisconnect
  | Indexes_CreateOne _ _ _ _ => KCreateOne
  | Coll_InsertOne _ _ _ => KInsertOne
  | Coll_InsertMany _ _ _ => KInsertMany
  | Coll_UpdateOne _ _ _ _ _ => KUpdateOne
  | Coll_FindOne _ _ _ => KFindOne
  | SingleResult_Decode _ => KDecode
  | Coll_DeleteOne _ _ _ _ => KDeleteOne
  | Coll_Find _ _ _ _ => KFind
  | Cursor_All _ _ => KAll
  | Cursor_Close _ _ => KCursorClose
  end.

(** The calls of the driver, as opposed to those of package [context]. *)
Definition driver_kind (k : Kind) : bool :=
  match k with
  | KWithTimeout | KCancel => false
  | _ => true
  end.

(** The context a call is given; [Decode] takes none. *)
Definition call_ctx (c : Call T) : option Ctx :=
  match c with
  | Ctx_WithTimeout parent _ => Some parent
  | Ctx_cancel c => Some c
  | Mongo_Connect c _ | Client_Ping c _ | Client_Disconnect c _
  | Indexes_CreateOne c _ _ _ | Coll_InsertOne c _ _ | Coll_InsertMany c _ _
  | Coll_UpdateOne c _ _ _ _ | Coll_FindOne c _ _ | Coll_DeleteOne c _ _ _
  | Coll_Find c _ _ _ | Cursor_All c _ | Cursor_Close c _ => Some c
  | SingleResult_Decode _ => None
  end.

(** The error a call reported, if it reported one. *)
Definition reply_err (c : Call T) : Reply c -> option error :=
  match c return Reply c -> option error with
  | Ctx_WithTimeout _ _ => fun _ => None
  | Ctx_cancel _ => fun _ => None
  | Mongo_Connect _ _ => fun r => match r with inl e => Some e | inr _ => None end
  | Client_Ping _ _ => fun r => r
  | Client_Disconnect _ _ => fun r => r
  | Indexes_CreateOne _ _ _ _ => fun r => r.2
  | Coll_InsertOne _ _ _ => fun r => r.2
  | Coll_InsertMany _ _ _ => fun r => r.2
  | Coll_UpdateOne _ _ _ _ _ => fun r => r.2
  | Coll_FindOne _ _ _ => fun _ => None
  | SingleResult_Decode _ => fun r => r.2
  | Coll_DeleteOne _ _ _ _ => fun r => r.2
  | Coll_Find _ _ _ _ => fun r => match r with inl e => Some e | inr _ => None end
  | Cursor_All _ _ => fun r => r.2
  | Cursor_Close _ _ => fun r => r
  end.

Definition entry_call (e : Entry T) : Call T := projT1 e.
Definition entry_kind (e : Entry T) : Kind := call_kind (projT1 e).
Definition entry_ctx (e : Entry T) : option Ctx := call_ctx (projT1 e).
Definition entry_err (e : Entry T) : option error :=
  reply_err (projT1 e) (projT2 e).

(** How many entries of a log are calls of kind [k]. *)
Definition count_kind (k : Kind) (tr : list (Entry T)) : nat :=
  length (filter (fun e => entry_kind e = k) tr).

(** A log that opens a ten-second scope on the background context, makes
    driver calls inside that scope only, and ends by releasing it. *)
Definition scoped (tr : list (Entry T)) : Prop :=
  ∃ (ctx : Ctx) (mid : list (Entry T)),
    tr = entry (Ctx_WithTimeout Background (10 * Second)%Z) ctx
         :: mid ++ [entry (Ctx_cancel ctx) tt]
    ∧ Forall (fun e => driver_kind (entry_kind e) = true
                       ∧ (entry_ctx e = Some ctx ∨ entry_ctx e = None)) mid.

End Log.

(** ** Operations, for statements about all of them *)

Section Operations.
Context {T : Type} `{Document T}.

Inductive Operation :=
| Op_NewMongoHandler (dbName url : string)
| Op_CreateIndex (db : Database) (collectionName : string) (model : bsonD T)
| Op_SaveOne (db : Database) (collectionName : string) (doc : T)
| Op_SaveMany (db : Database) (collectionName : string) (docs : list T)
| Op_UpdateOne (db : Database) (collectionName : string) (doc : T)
| Op_FindOne (db : Database) (collectionName : string) (filter : bsonD T)
| Op_DeleteOne (db : Database) (collectionName : string) (id : ObjectID)
| Op_Find (db : Database) (collectionName : string)
    (sortModel filter : bsonD T) (skip limit : Z)
| Op_Close (h : MongoHandler).

(** The error an operation returns: the last component of its results. *)
Definition returned_error {A : Type} (p : Prog T (A * option error))
  : Prog T (option error) :=
  r ← p; mret r.2.

Definition invoke (o : Operation) : Prog T (option error) :=
  match o with
  | Op_NewMongoHandler dbName url => returned_error (NewMongoHandler dbName url)
  | Op_CreateIndex db c model => CreateIndex db c model
  | Op_SaveOne db c doc => returned_error (SaveOne db c doc)
  | Op_SaveMany db c docs => returned_error (SaveMany db c docs)
  | Op_UpdateOne db c doc => returned_error (UpdateOne db c doc)
  | Op_FindOne db c filter => returned_error (FindOne db c filter)
  | Op_DeleteOne db c id => returned_error (DeleteOne db c id)
  | Op_Find db c sortModel filter skip limit =>
      returned_error (Find db c sortModel filter skip limit)
  | Op_Close h => Close h
  end.

End Operations.
Arguments Operation T : clear implicits.

(** ** A reference document service

    The driver and the service behind it are not part of the package.  Where
    a property speaks about what they answer, it is stated on this reference
    model of them: one in-memory store of collections, written in order of
    insertion, with the documented behaviour of the driver calls the helpers
    make (identifier generation and uniqueness on insert, first match for
    [FindOne], [UpdateOne] and [DeleteOne], no upsert unless asked, sort then
    skip then limit for [Find] with limit 0 meaning no limit).  It never
    times out. *)

(** How the driver's BSON codec treats the document type: the zero value
    that [var result T] starts from, the encoding of a value, and decoding
    into a value, which writes what it decoded and returns an error. *)
Class Codec (T : Type) := {
  zero : T;
  marshal : T -> Raw;
  unmarshal : Raw -> T * option error }.

Definition raw_get (k : string) (r : Raw) : option Scalar :=
  snd <$> List.find (fun kv => bool_decide (kv.1 = k)) r.

Fixpoint raw_set (k : string) (s : Scalar) (r : Raw) : Raw :=
  match r with
  | [] => [(k, s)]
  | (k', s') :: rest =>
      if bool_decide (k' = k) then (k, s) :: rest else (k', s') :: raw_set k s rest
  end.

Definition raw_set_all (fields r : Raw) : Raw :=
  foldl (fun acc kv => raw_set kv.1 kv.2 acc) r fields.

Definition has_id (id : Scalar) (r : Raw) : bool :=
  bool_decide (raw_get "_id" r = Some id).

(** The driver adds a generated [_id] in front of a document sent without. *)
Definition ensure_id (oid : ObjectID) (r : Raw) : Raw :=
  match raw_get "_id" r with
  | Some _ => r
  | None => ("_id", SOid oid) :: r
  end.

Definition scalar_of {T : Type} (v : Value T) : option Scalar :=
  match v with
  | VObjectID id => Some (SOid id)
  | VInt n => Some (SInt n)
  | VString s => Some (SStr s)
  | VDoc _ => None
  end.

(** Equality match of one filter element against a stored document. *)
Definition matches_elem {T : Type} (r : Raw) (kv : string * Value T) : bool :=
  match scalar_of kv.2 with
  | Some s => bool_decide (raw_get kv.1 r = Some s)
  | None => false
  end.

Definition matches {T : Type} (f : Filter T) (r : Raw) : bool :=
  match f with
  | FilterD d => forallb (matches_elem r) d
  | FilterM m => forallb (matches_elem r) (map_to_list m)
  end.

(** BSON comparison order: a missing field sorts first, then numbers, then
    strings, then identifiers. *)
Definition type_rank (o : option Scalar) : nat :=
  match o with
  | None => 0
  | Some (SInt _) => 1
  | Some (SStr _) => 2
  | Some (SOid _) => 3
  end.

Definition field_compare (a b : option Scalar) : comparison :=
  match a, b with
  | Some (SInt x), Some (SInt y) => Z.compare x y
  | Some (SStr x), Some (SStr y) => String.compare x y
  | Some (SOid x), Some (SOid y) => Z.compare x y
  | _, _ => Nat.compare (type_rank a) (type_rank b)
  end.

(** A sort specification as the service reads it: fields with a direction,
    ascending when positive. *)
Definition SortSpec := list (string * bool).

Fixpoint doc_compare (spec : SortSpec) (a b : Raw) : comparison :=
  match spec with
  | [] => Eq
  | (k, asc) :: rest =>
      let c := field_compare (raw_get k a) (raw_get k b) in
      match (if asc then c else CompOpp c) with
      | Eq => doc_compare rest a b
      | c' => c'
      end
  end.

Definition doc_le (spec : SortSpec) (a b : Raw) : Prop :=
  doc_compare spec a b ≠ Gt.

#[global] Instance doc_le_dec spec a b : Decision (doc_le spec a b).
Proof. unfold doc_le. apply _. Defined.

(** Directions must be the numbers 1 or -1. *)
Fixpoint sort_spec {T : Type} (d : bsonD T) : option SortSpec :=
  match d with
  | [] => Some []
  | (k, v) :: rest =>
      match v with
      | VInt 1 => cons (k, true) <$> sort_spec rest
      | VInt (-1) => cons (k, false) <$> sort_spec rest
      | _ => None
      end
  end.

(** [FindOptions.Limit], as the driver documents it: the maximum number of
    documents to return, where 0 (the default) means that every matching
    document is returned and a negative limit asks for that many documents
    in a single batch. *)
Definition apply_limit {A : Type} (limit : option Z) (l : list A) : list A :=
  match limit with
  | None => l
  | Some n => if (n =? 0)%Z then l else take (Z.to_nat (Z.abs n)) l
  end.

Definition apply_skip {A : Type} (skip : option Z) (l : list A) : list A :=
  match skip with
  | None => l
  | Some n => drop (Z.to_nat n) l
  end.

(** The service sorts stably: documents the specification does not tell
    apart stay in the order they were stored in. *)
Fixpoint place (spec : SortSpec) (x : Raw) (l : list Raw) : list Raw :=
  match l with
  | [] => [x]
  | y :: rest =>
      if decide (doc_le spec x y) then x :: y :: rest
      else y :: place spec x rest
  end.

Definition apply_sort (spec : SortSpec) (l : list Raw) : list Raw :=
  foldr (place spec) [] l.

(** The fields an update document sets: every operator must be [$set] with a
    whole document as operand. *)
Fixpoint set_fields {T : Type} `{Codec T} (u : bsonD T) : option Raw :=
  match u with
  | [] => Some []
  | (op, v) :: rest =>
      match v with
      | VDoc d =>
          if bool_decide (op = "$set")
          then app (marshal d) <$> set_fields rest
          else None
      | _ => None
      end
  end.

(** The equality fields of a filter, which an upsert starts the new
    document from. *)
Definition filter_fields {T : Type} (f : Filter T) : Raw :=
  let elems := match f with FilterD d => d | FilterM m => map_to_list m end in
  omap (fun kv => pair kv.1 <$> scalar_of kv.2) elems.

Definition wants_upsert (o : list UpdateOptions) : bool :=
  existsb (fun x => bool_decide (uo_Upsert x = Some true)) o.

(** Index of the first document that matches. *)
Fixpoint first_match {T : Type} (f : Filter T) (docs : list Raw) : option nat :=
  match docs with
  | [] => None
  | r :: rest => if matches f r then Some 0%nat else S <$> first_match f rest
  end.

Record World := {
  reachable : list string;
  sessions : list nat;
  next_client : nat;
  next_scope : nat;
  next_oid : ObjectID;
  next_cursor : nat;
  indexes : gmap (string * string) (list SortSpec);
  store : gmap (string * string) (list Raw) }.

Definition coll_key (c : Collection) : string * string :=
  (db_name (coll_db c), coll_name c).

Definition docs_of (w : World) (c : Collection) : list Raw :=
  default [] (store w !! coll_key c).

Definition set_docs (w : World) (c : Collection) (docs : list Raw) : World :=
  {| reachable := reachable w; sessions := sessions w;
     next_client := next_client w; next_scope := next_scope w;
     next_oid := next_oid w; next_cursor := next_cursor w;
     indexes := indexes w;
     store := <[coll_key c := docs]> (store w) |}.

Definition bump_oid (w : World) : World :=
  {| reachable := reachable w; sessions := sessions w;
     next_client := next_client w; next_scope := next_scope w;
     next_oid := (next_oid w + 1)%Z; next_cursor := next_cursor w;
     indexes := indexes w; store := store w |}.

Definition bump_scope (w : World) : World :=
  {| reachable := reachable w; sessions := sessions w;
     next_client := next_client w; next_scope := S (next_scope w);
     next_oid := next_oid w; next_cursor := next_cursor w;
     indexes := indexes w; store := store w |}.

Definition bump_cursor (w : World) : World :=
  {| reachable := reachable w; sessions := sessions w;
     next_client := next_client w; next_scope := next_scope w;
     next_oid := next_oid w; next_cursor := S (next_cursor w);
     indexes := indexes w; store := store w |}.

Definition open_session (w : World) : World :=
  {| reachable := reachable w; sessions := next_client w :: sessions w;
     next_client := S (next_client w); next_scope := next_scope w;
     next_oid := next_oid w; next_cursor := next_cursor w;
     indexes := indexes w; store := store w |}.

Definition close_session (id : nat) (w : World) : World :=
  {| reachable := reachable w;
     sessions := filter (fun i => i ≠ id) (sessions w);
     next_client := next_client w; next_scope := next_scope w;
     next_oid := next_oid w; next_cursor := next_cursor w;
     indexes := indexes w; store := store w |}.

Definition add_index (c : Collection) (spec : SortSpec) (w : World) : World :=
  {| reachable := reachable w; sessions := sessions w;
     next_client := next_client w; next_scope := next_scope w;
     next_oid := next_oid w; next_cursor := next_cursor w;
     indexes :=
       <[coll_key c := spec :: default [] (indexes w !! coll_key c)]> (indexes w);
     store := store w |}.

(** Whether calls through a client reach the service: the client is
    connected and its connection string is one the service answers on. *)
Definition session_error (w : World) (cl : Client) : option error :=
  if bool_decide (client_id cl ∈ sessions w)
  then if bool_decide (client_uri cl ∈ reachable w) then None
       else Some ServerSelectionError
  else Some ErrClientDisconnected.

Definition coll_error (w : World) (c : Collection) : option error :=
  session_error w (db_client (coll_db c)).

Section Service.
Context {T : Type} `{Codec T}.

Definition svc_WithTimeout (parent : Ctx) (d : Duration) (w : World)
  : Ctx * World :=
  (Scope (next_scope w) parent d, bump_scope w).

(** [mongo.Connect] checks the connection string and starts a session; it
    does not wait for the service to answer. *)
Definition svc_Connect (o : ClientOptions) (w : World)
  : (error + Client) * World :=
  let uri := default "mongodb://localhost:27017" (co_uri o) in
  if String.prefix "mongodb://" uri || String.prefix "mongodb+srv://" uri
  then (inr {| client_id := next_client w; client_uri := uri |}, open_session w)
  else (inl (CommandError 2), w).

Definition svc_Ping (cl : Client) (w : World) : option error * World :=
  (session_error w cl, w).

Definition svc_Disconnect (cl : Client) (w : World) : option error * World :=
  if bool_decide (client_id cl ∈ sessions w)
  then (None, close_session (client_id cl) w)
  else (Some ErrClientDisconnected, w).

Definition svc_CreateOne (c : Collection) (m : IndexModel T) (w : World)
  : (string * option error) * World :=
  match coll_error w c with
  | Some e => ("", Some e, w)
  | None =>
      match sort_spec (Keys m) with
      | None => ("", Some (CommandError 67), w)
      | Some spec =>
          (String.concat "_" (fst <$> spec), None, add_index c spec w)
      end
  end.

(** One insert into a list of documents: the identifier is generated when
    missing and must be new to the collection. *)
Definition insert_raw (oid : ObjectID) (r : Raw) (docs : list Raw)
  : error + (Scalar * list Raw) :=
  let r' := ensure_id oid r in
  match raw_get "_id" r' with
  | None => inl (WriteException 2)
  | Some id =>
      if existsb (has_id id) docs then inl (WriteException 11000)
      else inr (id, docs ++ [r'])
  end.

Definition svc_InsertOne (c : Collection) (doc : Any T) (w : World)
  : (option InsertOneResult * option error) * World :=
  match doc with
  | nil_iface => (None, Some ErrNilDocument, w)
  | box d =>
      match coll_error w c with
      | Some e => (None, Some e, w)
      | None =>
          match insert_raw (next_oid w) (marshal d) (docs_of w c) with
          | inl e => (None, Some e, w)
          | inr (id, docs) =>
              (Some {| InsertedID := id |}, None, set_docs (bump_oid w) c docs)
          end
      end
  end.

Definition unbox_all (docs : list (Any T)) : option (list T) :=
  mapM (fun a => match a with box d => Some d | nil_iface => None end) docs.

(** Ordered batch insert: documents go in one after the other and the batch
    stops at the first that is refused. *)
Fixpoint insert_batch (batch : list T) (ids : list Scalar) (w : World)
  (c : Collection) : (option InsertManyResult * option error) * World :=
  match batch with
  | [] => (Some {| InsertedIDs := ids |}, None, w)
  | d :: rest =>
      match insert_raw (next_oid w) (marshal d) (docs_of w c) with
      | inl e => (Some {| InsertedIDs := ids |}, Some e, w)
      | inr (id, docs) =>
          insert_batch rest (ids ++ [id]) (set_docs (bump_oid w) c docs) c
      end
  end.

Definition svc_InsertMany (c : Collection) (docs : list (Any T)) (w : World)
  : (option InsertManyResult * option error) * World :=
  match docs with
  | [] => (None, Some ErrEmptySlice, w)
  | _ =>
      match unbox_all docs with
      | None => (None, Some ErrNilDocument, w)
      | Some batch =>
          match coll_error w c with
          | Some e => (None, Some e, w)
          | None => insert_batch batch [] w c
          end
      end
  end.

Definition svc_UpdateOne (c : Collection) (f : Filter T) (u : bsonD T)
  (o : list UpdateOptions) (w : World)
  : (option UpdateResult * option error) * World :=
  match u, set_fields u with
  | [], _ | _, None => (None, Some (WriteException 9), w)
  | _, Some fields =>
      match coll_error w c with
      | Some e => (None, Some e, w)
      | None =>
          let docs := docs_of w c in
          match first_match f docs with
          | None =>
              if wants_upsert o then
                match insert_raw (next_oid w)
                        (raw_set_all fields (filter_fields f)) docs with
                | inl e => (None, Some e, w)
                | inr (id, docs') =>
                    (Some {| MatchedCount := 0; ModifiedCount := 0;
                             UpsertedCount := 1; UpsertedID := Some id |},
                     None, set_docs (bump_oid w) c docs')
                end
              else
                (Some {| MatchedCount := 0; ModifiedCount := 0;
                         UpsertedCount := 0; UpsertedID := None |}, None, w)
          | Some i =>
              let old := default [] (docs !! i) in
              let new := raw_set_all fields old in
              if bool_decide (raw_get "_id" new = raw_get "_id" old) then
                (Some {| MatchedCount := 1;
                         ModifiedCount := if bool_decide (new = old) then 0 else 1;
                         UpsertedCount := 0; UpsertedID := None |},
                 None, set_docs w c (<[i := new]> docs))
              else (None, Some (WriteException 66), w)
          end
      end
  end.

Definition svc_FindOne (c : Collection) (f : Filter T) (w : World)
  : SingleResult * World :=
  match coll_error w c with
  | Some e => ({| sr_err := Some e; sr_raw := [] |}, w)
  | None =>
      match List.find (matches f) (docs_of w c) with
      | Some r => ({| sr_err := None; sr_raw := r |}, w)
      | None => ({| sr_err := Some ErrNoDocuments; sr_raw := [] |}, w)
      end
  end.

Definition svc_Decode (sr : SingleResult) (w : World)
  : (T * option error) * World :=
  match sr_err sr with
  | Some e => (zero, Some e, w)
  | None => (unmarshal (sr_raw sr), w)
  end.

(** A hint must name an index of the collection; the index on [_id] always
    exists. *)
Definition hint_ok (w : World) (c : Collection) (h : option (bsonD T)) : bool :=
  match h with
  | None => true
  | Some d =>
      match sort_spec d with
      | None => false
      | Some spec =>
          bool_decide (spec = [("_id", true)])
          || bool_decide (spec ∈ default [] (indexes w !! coll_key c))
      end
  end.

Definition svc_DeleteOne (c : Collection) (f : Filter T)
  (o : DeleteOptions T) (w : World)
  : (option DeleteResult * option error) * World :=
  match coll_error w c with
  | Some e => (None, Some e, w)
  | None =>
      if hint_ok w c (do_Hint o) then
        let docs := docs_of w c in
        match first_match f docs with
        | None => (Some {| DeletedCount := 0 |}, None, w)
        | Some i => (Some {| DeletedCount := 1 |}, None, set_docs w c (delete i docs))
        end
      else (None, Some (CommandError 2), w)
  end.

(** What a Find that is accepted hands to its cursor: the documents that
    match, sorted, then skipped, then limited. *)
Definition found_batch (w : World) (coll : Collection) (spec : SortSpec)
  (fl : Filter T) (skip limit : option Z) : list Raw :=
  apply_limit limit
    (apply_skip skip
       (apply_sort spec
          (filter (fun r => matches fl r = true) (docs_of w coll)))).

Definition svc_Find (c : Collection) (f : Filter T) (o : FindOptions T)
  (w : World) : (error + Cursor) * World :=
  match coll_error w c with
  | Some e => (inl e, w)
  | None =>
      match sort_spec (default [] (fo_Sort o)) with
      | None => (inl (CommandError 2), w)
      | Some spec =>
          if bool_decide (default 0 (fo_Skip o) < 0)%Z
          then (inl (CommandError 2), w)
          else
            (inr {| cursor_id := next_cursor w;
                    cursor_batch :=
                      found_batch w c spec f (fo_Skip o) (fo_Limit o) |},
             bump_cursor w)
      end
  end.

(** [cursor.All] decodes the documents of the cursor in order and stops at
    the first that does not decode. *)
Fixpoint decode_all (batch : list Raw) : list T * option error :=
  match batch with
  | [] => ([], None)
  | r :: rest =>
      match unmarshal r with
      | (_, Some e) => ([], Some e)
      | (d, None) => let (ds, e) := decode_all rest in (d :: ds, e)
      end
  end.

Definition service : Handler T World :=
  fun c =>
    match c return World -> Reply c * World with
    | Ctx_WithTimeout parent d => svc_WithTimeout parent d
    | Ctx_cancel _ => fun w => (tt, w)
    | Mongo_Connect _ o => svc_Connect o
    | Client_Ping _ cl => svc_Ping cl
    | Client_Disconnect _ cl => svc_Disconnect cl
    | Indexes_CreateOne _ coll m _ => svc_CreateOne coll m
    | Coll_InsertOne _ coll doc => svc_InsertOne coll doc
    | Coll_InsertMany _ coll docs => svc_InsertMany coll docs
    | Coll_UpdateOne _ coll f u o => svc_UpdateOne coll f u o
    | Coll_FindOne _ coll f => svc_FindOne coll f
    | SingleResult_Decode sr => svc_Decode sr
    | Coll_DeleteOne _ coll f o => svc_DeleteOne coll f o
    | Coll_Find _ coll f o => svc_Find coll f o
    | Cursor_All _ cur => fun w => (decode_all (cursor_batch cur), w)
    | Cursor_Close _ _ => fun w => (None, w)
    end.

End Service.

(** ** The document type of [example/example.go] *)

Module example.

(** [type User struct { ID primitive.ObjectID `bson:"_id,omitempty"`;
    Name string `bson:"name"` }] *)
Record User := { ID : ObjectID; Name : string }.

#[global] Instance User_eq_dec : EqDecision User.
Proof. solve_decision. Defined.

(** [func (u User) GetID() primitive.ObjectID { return u.ID }] *)
#[global] Instance User_Document : Document User := {| GetID := ID |}.

(** The struct tags: [_id] is left out when it is the zero identifier. *)
Definition User_marshal (u : User) : Raw :=
  (if bool_decide (ID u = NilObjectID) then [] else [("_id", SOid (ID u))])
  ++ [("name", SStr (Name u))].

(** Decoding fills the fields the document has and leaves the others at
    their zero value; a field of the wrong type is an error. *)
Definition User_unmarshal (r : Raw) : User * option error :=
  match raw_get "_id" r with
  | Some (SInt _) | Some (SStr _) =>
      ({| ID := NilObjectID; Name := "" |}, Some (DecodeError "_id"))
  | id =>
      let i := match id with Some (SOid i) => i | _ => NilObjectID end in
      match raw_get "name" r with
      | Some (SInt _) | Some (SOid _) =>
          ({| ID := i; Name := "" |}, Some (DecodeError "name"))
      | Some (SStr n) => ({| ID := i; Name := n |}, None)
      | None => ({| ID := i; Name := "" |}, None)
      end
  end.

#[global] Instance User_Codec : Codec User :=
  {| zero := {| ID := NilObjectID; Name := "" |};
     marshal := User_marshal;
     unmarshal := User_unmarshal |}.

(** A service that answers on the connection string of the example, with
    nothing stored yet. *)
Definition fresh : World :=
  {| reachable := ["mongodb://localhost:27017"]; sessions := [];
     next_client := 0; next_scope := 0; next_oid := 1000%Z;
     next_cursor := 0; indexes := ∅; store := ∅ |}.

(** The handle [main] works with once [NewMongoHandler] has returned. *)
Definition client0 : Client :=
  {| client_id := 0; client_uri := "mongodb://localhost:27017" |}.
Definition test_db : Database := Client_Database client0 "test_db".

Definition John : User := {| ID := NilObjectID; Name := "John Doe" |}.

(** The worlds [main] of the example goes through: after the handler is
    made, and after John Doe is saved. *)
Definition connected : World :=
  world_of (run service
              (NewMongoHandler (T := User) "test_db" "mongodb://localhost:27017")
              fresh).
Definition stocked : World :=
  world_of (run service (SaveOne test_db "users" John) connected).

(** A user that carries its identifier. *)
Definition Jane : User := {| ID := 77%Z; Name := "Jane Roe" |}.

End example.

(** ** The program of [example/example.go] *)

(** What [main] writes with package [log]: the value handed to each
    [log.Printf], or the error handed to [log.Fatal]. *)
Inductive LogLine :=
| Printf_result (r : option InsertOneResult)
| Printf_user (u : option example.User)
| Printf_users (us : option (list example.User))
| Fatal_error (e : error).

(** How [main] ends: it returns, [log.Fatal] exits the process with status
    1, or a nil pointer is dereferenced. *)
Inductive Ending :=
| Returned
| Exited (status : Z)
| Panicked.

#[global] Instance Ending_eq_dec : EqDecision Ending.
Proof. solve_decision. Defined.

(** [log.Fatal(err)]: the line is written and the process exits. *)
Definition log_Fatal (lines : list LogLine) (e : error)
  : Prog example.User (list LogLine * Ending) :=
  mret (lines ++ [Fatal_error e], Exited 1).

(** A deferred helper call in [main]: it runs when [main] returns, with its
    result dropped, and does not run when the process exits or panics before
    the helper could make a call. *)
Definition defer_in_main {A : Type} (d : Prog example.User A)
  (rest : Prog example.User (list LogLine * Ending))
  : Prog example.User (list LogLine * Ending) :=
  r ← rest;
  match r.2 with
  | Returned => _ ← d; mret r
  | _ => mret r
  end.

(** [func main()] *)
Definition main : Prog example.User (list LogLine * Ending) :=
  '(handler, err) ← NewMongoHandler "test_db" "mongodb://localhost:27017";
  match err with
  | Some e => log_Fatal [] e
  | None =>
      match handler with
      | None => mret ([], Panicked)
      | Some handler =>
          defer_in_main (Close handler) (
            let collectionName := "users" in
            let user := {| example.ID := NilObjectID; example.Name := "John Doe" |} in
            '(result, err) ← SaveOne (DB handler) collectionName user;
            match err with
            | Some e => log_Fatal [] e
            | None =>
                let lines := [Printf_result result] in
                let filter := [("name", VString "John Doe")] in
                '(foundUser, err) ← FindOne (DB handler) collectionName filter;
                match err with
                | Some e => log_Fatal lines e
                | None =>
                    let lines := lines ++ [Printf_user foundUser] in
                    let sortModel := [("name", VInt 1%Z)] in
                    '(users, err) ←
                      Find (DB handler) collectionName sortModel [] 0%Z 10%Z;
                    match err with
                    | Some e => log_Fatal lines e
                    | None => mret (lines ++ [Printf_users users], Returned)
                    end
                end
            end)
      end
  end.

(** The kinds of call that write to a collection. *)
Definition write_kind (k : Kind) : bool :=
  match k with
  | KCreateOne | KInsertOne | KInsertMany | KUpdateOne | KDeleteOne => true
  | _ => false
  end.

(** * Properties *)

(** ** Running programs *)

Section RunLemmas.
Context {T : Type} {W : Type} (h : Handler T W).

Lemma run_bind {A B : Type} (p : Prog T A) (f : A -> Prog T B) (w : W) :
  run h (bind p f) w =
  let '(a, w1, t1) := run h p w in
  let '(b, w2, t2) := run h (f a) w1 in
  (b, w2, t1 ++ t2).
Proof.
  revert w. induction p as [a | c k IH]; intros w; cbn [bind run].
  - by destruct (run h (f a) w) as [[b w2] t2].
  - destruct (h c w) as [r w1]. rewrite IH.
    destruct (run h (k r) w1) as [[a w2] t1].
    by destruct (run h (f a) w2) as [[b w3] t2].
Qed.

(** The error component of an operation is read off without a call. *)
Lemma run_returned_error {A : Type} (p : Prog T (A * option error)) (w : W) :
  run h (returned_error p) w =
  ((result_of (run h p w)).2, world_of (run h p w), trace_of (run h p w)).
Proof.
  unfold returned_error, mbind, Prog_bind. rewrite run_bind.
  destruct (run h p w) as [[a w1] t1]. cbn. by rewrite app_nil_r.
Qed.

End RunLemmas.

(** Unfold a helper down to its calls, and ask the driver for the answer of
    the next call. *)
Ltac expose :=
  unfold NewMongoHandler, CreateIndex, SaveOne, SaveMany, UpdateOne, FindOne,
    DeleteOne, Find, Close, defer, call, mbind, mret, Prog_bind, Prog_ret;
  cbn [bind run].

Ltac ask h :=
  match goal with
  | |- context [h ?c ?w] =>
      let r := fresh "r" in
      let w' := fresh "w" in
      let E := fresh "E" in
      destruct (h c w) as [r w'] eqn:E; cbn in r; cbn [bind run]
  end.

Ltac in_log :=
  repeat match goal with
    | H : _ ∈ _ :: _ |- _ =>
        let E := fresh "E" in
        apply elem_of_cons in H as [E | H];
        [ first [ discriminate E | subst | idtac ] | ]
    | H : _ ∈ [] |- _ => by apply elem_of_nil in H
    end.

(** ** The conversion loop of SaveMany *)

Section Interfaces.
Context {T : Type}.

Lemma fill_interfaces_spec (docs : list T) (pre : list (Any T)) :
  fill_interfaces (length pre) docs
    (pre ++ replicate (length docs) nil_iface)
  = pre ++ (box <$> docs).
Proof.
  revert pre. induction docs as [| doc rest IH]; intros pre; cbn.
  - done.
  - replace (<[length pre := box doc]> (pre ++ nil_iface :: replicate (length rest) nil_iface))
      with ((pre ++ [box doc]) ++ replicate (length rest) nil_iface).
    + replace (S (length pre)) with (length (pre ++ [box doc]))
        by (rewrite length_app; cbn; lia).
      rewrite IH. by rewrite <- app_assoc.
    + rewrite insert_app_r_alt by lia.
      rewrite Nat.sub_diag. cbn. by rewrite <- app_assoc.
Qed.

Lemma to_interfaces_fmap (docs : list T) : to_interfaces docs = box <$> docs.
Proof. apply (fill_interfaces_spec docs []). Qed.

End Interfaces.

(** ** Statements over every driver *)

Section AnyDriver.
Context {T : Type} `{Document T} {W : Type}.
Implicit Types (h : Handler T W) (w : W).

Ltac scoped_done :=
  repeat match goal with u : unit |- _ => destruct u end;
  match goal with
  | |- scoped (entry _ ?c :: ?l) =>
      exists c, (removelast l); split;
      [ reflexivity
      | repeat first
          [ apply List.Forall_nil
          | apply List.Forall_cons;
            [ split; [ reflexivity
                     | first [ left; reflexivity | right; reflexivity ] ] | ] ] ]
  end.

Lemma scoped_invoke h w (op : Operation T) :
  scoped (trace_of (run h (invoke op) w)).
Proof.
  destruct op; cbn [invoke]; rewrite ?run_returned_error; unfold trace_of; cbn [snd]; expose.
  - ask h. ask h. destruct r0 as [e | cl]; cbn [bind run].
    + ask h. cbn. scoped_done.
    + ask h. destruct r0 as [e |]; cbn [bind run]; ask h; cbn; scoped_done.
  - ask h. ask h. destruct r0 as [name e]. cbn [bind run]. ask h. cbn. scoped_done.
  - ask h. ask h. ask h. cbn. scoped_done.
  - cbv zeta. ask h. ask h. ask h. cbn. scoped_done.
  - ask h. ask h. ask h. cbn. scoped_done.
  - ask h. ask h. ask h. destruct r1 as [d [e |]]; cbn [bind run];
      ask h; cbn; scoped_done.
  - ask h. ask h. ask h. cbn. scoped_done.
  - ask h. ask h. destruct r0 as [e | cur]; cbn [bind run].
    + ask h. cbn. scoped_done.
    + ask h. destruct r0 as [ds [e |]]; cbn [bind run];
        ask h; ask h; cbn; scoped_done.
  - ask h. ask h. ask h. cbn. scoped_done.
Qed.

(** C4: every operation, on every driver and whatever the driver answers,
    first opens a scope of 10 seconds on the background context, passes
    that scope and no other to each call that takes a context, and releases
    it as its last act on every exit path.  The scope's parent and duration
    are constants of the helper: no argument of any operation reaches them. *)
Theorem every_operation_scoped h w (op : Operation T) :
  let tr := trace_of (run h (invoke op) w) in
  ∃ (ctx : Ctx) (mid : list (Entry T)),
    tr = entry (Ctx_WithTimeout Background (10 * Second)%Z) ctx
         :: mid ++ [entry (Ctx_cancel ctx) tt]
    ∧ Forall (fun e => driver_kind (entry_kind e) = true
                       ∧ (entry_ctx e = Some ctx ∨ entry_ctx e = None)) mid.
Proof. apply scoped_invoke. Qed.

(** C7: for every list of documents, the empty one included, SaveMany
    submits one InsertMany call and no other driver call; the sequence it
    submits has the length of the list and holds at each index the document
    of that index, boxed; the driver's answer is returned as it is. *)
Theorem SaveMany_single_batch h w (db : Database) (c : string) (docs : list T) :
  let out := run h (SaveMany db c docs) w in
  let interfaces := to_interfaces docs in
  length interfaces = length docs
  ∧ (∀ i : nat, interfaces !! i = box <$> docs !! i)
  ∧ ∃ ctx r,
      trace_of out =
        [ entry (Ctx_WithTimeout Background (10 * Second)%Z) ctx;
          entry (Coll_InsertMany ctx (Database_Collection db c) interfaces) r;
          entry (Ctx_cancel ctx) tt ]
      ∧ result_of out = r.
Proof.
  cbv zeta. rewrite to_interfaces_fmap. split; [by rewrite length_fmap |].
  split; [intros i; by rewrite list_lookup_fmap |].
  expose. cbv zeta. rewrite to_interfaces_fmap.
  ask h. ask h. ask h. destruct r1. by exists r, r0.
Qed.

End AnyDriver.

Section Connecting.
Context {T : Type} {W : Type}.
Implicit Types (h : Handler T W) (w : W).

(** The two shapes a run of NewMongoHandler can take. *)
Lemma NewMongoHandler_run h w (dbName url : string) :
  let out := run h (NewMongoHandler dbName url) w in
  ∃ ctx rc,
    (∃ e, rc = inl e
       ∧ trace_of out =
           [ entry (Ctx_WithTimeout Background (10 * Second)%Z) ctx;
             entry (Mongo_Connect ctx (ApplyURI url options_Client)) rc;
             entry (Ctx_cancel ctx) tt ]
       ∧ result_of out = (None, Some e))
    ∨ (∃ cl rp,
         rc = inr cl
         ∧ trace_of out =
             [ entry (Ctx_WithTimeout Background (10 * Second)%Z) ctx;
               entry (Mongo_Connect ctx (ApplyURI url options_Client)) rc;
               entry (Client_Ping ctx cl) rp;
               entry (Ctx_cancel ctx) tt ]
         ∧ result_of out =
             match rp with
             | Some e => (None, Some e)
             | None => (Some {| DB := Client_Database cl dbName |}, None)
             end).
Proof.
  cbv zeta. expose. ask h. ask h. exists r, r0. destruct r0 as [e | cl]; cbn [bind run].
  - left. ask h. destruct r0. by exists e.
  - right. ask h. exists cl, r0. destruct r0 as [e |]; cbn [bind run];
      ask h; by destruct r0.
Qed.

(** C3: NewMongoHandler establishes the session first and pings second, the
    ping only on a session that was established, both inside the ten-second
    scope.  It returns a handle exactly when both calls report no error, the
    handle being the named database of the session's client; when either call
    reports an error (a missed deadline is reported as one), it returns that
    error and no handle. *)
Theorem NewMongoHandler_session_then_ping h w (dbName url : string) :
  let out := run h (NewMongoHandler dbName url) w in
  let tr := trace_of out in
  (entry_kind <$> tr = [KWithTimeout; KConnect; KCancel]
   ∨ entry_kind <$> tr = [KWithTimeout; KConnect; KPing; KCancel])
  ∧ (KPing ∈ entry_kind <$> tr ↔
     ∃ en, en ∈ tr ∧ entry_kind en = KConnect ∧ entry_err en = None)
  ∧ (∀ hd, (result_of out).1 = Some hd ↔
       ∃ ctx cl,
         tr = [ entry (Ctx_WithTimeout Background (10 * Second)%Z) ctx;
                entry (Mongo_Connect ctx (ApplyURI url options_Client)) (inr cl);
                entry (Client_Ping ctx cl) None;
                entry (Ctx_cancel ctx) tt ]
         ∧ hd = {| DB := Client_Database cl dbName |})
  ∧ (∀ en e, en ∈ tr → entry_err en = Some e → result_of out = (None, Some e))
  ∧ ((result_of out).1 = None ↔ (result_of out).2 ≠ None).
Proof.
  cbv zeta.
  destruct (NewMongoHandler_run h w dbName url)
    as (ctx & rc & [(e & -> & Htr & Hres) | (cl & rp & -> & Htr & Hres)]);
    rewrite Htr, Hres; cbn.
  - split; [by left |]. split.
    { split.
      - intros Hin. in_log.
      - intros (en & Hin & Hk & He). in_log; done. }
    split.
    { intros hd. split; [done |]. intros (ctx' & cl & Heq & _).
      by apply (f_equal length) in Heq. }
    split; [| done].
    intros en e' Hin He. in_log; cbn in He; congruence.
  - split; [by right |]. split.
    { split.
      - intros _. eexists. split; [apply list_elem_of_lookup_2 with 1%nat; done |]. done.
      - intros _. apply list_elem_of_lookup_2 with 2%nat. done. }
    destruct rp as [e |]; cbn.
    + split.
      { intros hd. split; [done |].
        intros (ctx' & cl' & Heq & _).
        apply (f_equal (fmap entry_err)) in Heq.
        unfold entry_err, entry in Heq. cbn in Heq. by simplify_eq. }
      split; [| done].
      intros en e' Hin He. in_log; cbn in He; congruence.
    + split.
      { intros hd. split.
        - intros [= <-]. by exists ctx, cl.
        - intros (ctx' & cl' & Heq & ->).
          apply (f_equal (fmap entry_call)) in Heq.
          unfold entry_call, entry in Heq. cbn in Heq. by simplify_eq. }
      split; [| split; [done | intros Hn; by destruct Hn]].
      intros en e' Hin He. in_log; cbn in He; congruence.
Qed.

End Connecting.

Section Passing.
Context {T : Type} `{Document T} {W : Type}.
Implicit Types (h : Handler T W) (w : W).

(** C10: when the session was established and the ping then reports an
    error, NewMongoHandler returns that error and no handle, and the run
    holds no Disconnect call: after the ping only the scope is released, so
    the world is left as the failed ping left it, session included. *)
Theorem NewMongoHandler_ping_failure_keeps_session h w (dbName url : string)
  (ctx : Ctx) (cl : Client) (e : error) (w1 w2 w3 : W) :
  h (Ctx_WithTimeout Background (10 * Second)%Z) w = (ctx, w1) →
  h (Mongo_Connect ctx (ApplyURI url options_Client)) w1 = (inr cl, w2) →
  h (Client_Ping ctx cl) w2 = (Some e, w3) →
  let out := run h (NewMongoHandler dbName url) w in
  result_of out = (None, Some e)
  ∧ trace_of out =
      [ entry (Ctx_WithTimeout Background (10 * Second)%Z) ctx;
        entry (Mongo_Connect ctx (ApplyURI url options_Client)) (inr cl);
        entry (Client_Ping ctx cl) (Some e);
        entry (Ctx_cancel ctx) tt ]
  ∧ count_kind KDisconnect (trace_of out) = 0%nat
  ∧ world_of out = (h (Ctx_cancel ctx) w3).2.
Proof.
  intros E1 E2 E3. cbv zeta. expose.
  rewrite E1. cbn [bind run]. rewrite E2. cbn [bind run]. rewrite E3. cbn [bind run].
  destruct (h (Ctx_cancel ctx) w3) as [[] w4]. done.
Qed.

(** Every operation makes each kind of call at most once. *)
Lemma invoke_NoDup h w (op : Operation T) :
  NoDup (entry_kind <$> trace_of (run h (invoke op) w)).
Proof.
  assert (Hdec : ∀ l : list Kind, bool_decide (NoDup l) = true → NoDup l)
    by (intros l; apply bool_decide_eq_true_1).
  destruct op; cbn [invoke]; rewrite ?run_returned_error; unfold trace_of;
    cbn [snd]; expose; cbv zeta;
    repeat (ask h;
            try match goal with
              | r : (_ + _)%type |- _ => destruct r
              | r : (_ * option error)%type |- _ => destruct r as [? [?|]]
              | r : option error |- _ => destruct r
              end; cbn [bind run]);
    by apply Hdec.
Qed.

Ltac pick_entry l :=
  match l with
  | ?x :: ?l' =>
      first [ exists x; split;
              [ apply list_elem_of_In; cbn; auto 10
              | split; reflexivity ]
            | pick_entry l' ]
  end.

(** An error an operation returns is the error one of its driver calls
    reported, and an error reported by a call other than the deferred
    cursor close is the error the operation returns. *)
Lemma invoke_errors h w (op : Operation T) :
  let out := run h (invoke op) w in
  (∀ e, result_of out = Some e →
     ∃ en, en ∈ trace_of out
           ∧ driver_kind (entry_kind en) = true ∧ entry_err en = Some e)
  ∧ (∀ en e, en ∈ trace_of out → entry_kind en ≠ KCursorClose →
       entry_err en = Some e → result_of out = Some e).
Proof.
  cbv zeta.
  destruct op; cbn [invoke]; rewrite ?run_returned_error;
    unfold trace_of, result_of; cbn [fst snd]; expose; cbv zeta;
    repeat (ask h;
            try match goal with
              | r : (_ + _)%type |- _ => destruct r
              | r : (_ * option error)%type |- _ => destruct r as [? [?|]]
              | r : option error |- _ => destruct r
              | r : unit |- _ => destruct r
              end; cbn [bind run]);
    cbn [fst snd];
    (split;
     [ intros e' He'; simplify_eq;
       match goal with |- ∃ en, en ∈ ?l ∧ _ => pick_entry l end
     | intros en e' Hin Hk He'; in_log;
       unfold entry_err, entry_kind, entry in *; cbn in *; congruence ]).
Qed.

End Passing.

Section OnService.
Context {T : Type} `{Document T} `{Codec T}.

Lemma coll_error_bump_scope w c : coll_error (bump_scope w) c = coll_error w c.
Proof. done. Qed.

Lemma docs_of_bump_scope w c : docs_of (bump_scope w) c = docs_of w c.
Proof. done. Qed.

Lemma hint_ok_bump_scope w c (hint : option (bsonD T)) :
  hint_ok (bump_scope w) c hint = hint_ok w c hint.
Proof. done. Qed.

Lemma hint_ok_id w c : hint_ok (T := T) w c (Some [("_id", VInt 1)]) = true.
Proof. done. Qed.

Lemma first_match_None (f : Filter T) (docs : list Raw) :
  Forall (fun r => matches f r = false) docs → first_match f docs = None.
Proof.
  induction 1 as [| r rest Hr _ IH]; cbn; [done |]. by rewrite Hr, IH.
Qed.

Lemma find_None (f : Filter T) (docs : list Raw) :
  Forall (fun r => matches f r = false) docs → List.find (matches f) docs = None.
Proof.
  induction 1 as [| r rest Hr _ IH]; cbn; [done |]. by rewrite Hr.
Qed.

Lemma matches_id_D (id : ObjectID) (r : Raw) :
  matches (T := T) (FilterD [("_id", VObjectID id)]) r
  = bool_decide (raw_get "_id" r = Some (SOid id)).
Proof. cbn. unfold matches_elem. cbn. by rewrite andb_true_r. Qed.

Lemma matches_id_M (id : ObjectID) (r : Raw) :
  matches (T := T) (FilterM {[ "_id" := VObjectID id ]}) r
  = bool_decide (raw_get "_id" r = Some (SOid id)).
Proof.
  cbn. rewrite map_to_list_singleton. cbn. unfold matches_elem. cbn.
  by rewrite andb_true_r.
Qed.

(** The run of DeleteOne on every driver: one call, answered as is. *)
Lemma DeleteOne_run {W : Type} (h : Handler T W) (w : W) (db : Database)
  (c : string) (id : ObjectID) :
  let out := run h (DeleteOne db c id) w in
  ∃ ctx r,
    trace_of out =
      [ entry (Ctx_WithTimeout Background (10 * Second)%Z) ctx;
        entry (Coll_DeleteOne ctx (Database_Collection db c)
                 (FilterM {[ "_id" := VObjectID id ]})
                 {| do_Hint := Some [("_id", VInt 1)] |}) r;
        entry (Ctx_cancel ctx) tt ]
    ∧ result_of out = r.
Proof.
  cbv zeta. expose. ask h. ask h. ask h. destruct r1. by exists r, r0.
Qed.

(** C6: on every driver, DeleteOne makes one DeleteOne call whose filter is
    the map with the single key [_id] bound to the given identifier and
    whose options carry the hint [{_id: 1}], and returns the driver's answer
    as it is.  On the reference service, reached through a live handle, when
    no stored document has that identifier the answer is a result with zero
    deleted and no error, and nothing stored changes. *)
Theorem DeleteOne_absent_identifier (w : World) (db : Database) (c : string)
  (id : ObjectID) :
  coll_error w (Database_Collection db c) = None →
  Forall (fun r => raw_get "_id" r ≠ Some (SOid id))
    (docs_of w (Database_Collection db c)) →
  let out := run service (DeleteOne (T := T) db c id) w in
  result_of out = (Some {| DeletedCount := 0 |}, None)
  ∧ store (world_of out) = store w
  ∧ ∀ (W : Type) (h : Handler T W) (w' : W),
      let out' := run h (DeleteOne db c id) w' in
      ∃ ctx r,
        trace_of out' =
          [ entry (Ctx_WithTimeout Background (10 * Second)%Z) ctx;
            entry (Coll_DeleteOne ctx (Database_Collection db c)
                     (FilterM {[ "_id" := VObjectID id ]})
                     {| do_Hint := Some [("_id", VInt 1)] |}) r;
            entry (Ctx_cancel ctx) tt ]
        ∧ result_of out' = r.
Proof.
  intros Hlive Hno. cbv zeta.
  assert (Hnone : first_match (T := T) (FilterM {[ "_id" := VObjectID id ]})
                    (docs_of w (Database_Collection db c)) = None).
  { apply first_match_None. eapply Forall_impl; [exact Hno |].
    intros r Hr. cbn beta in Hr.
    rewrite matches_id_M. by apply bool_decide_eq_false_2. }
  split; [| split; [| intros W h w'; apply DeleteOne_run]];
    expose; cbn [service svc_WithTimeout bind run];
    unfold svc_DeleteOne;
    rewrite coll_error_bump_scope, Hlive, hint_ok_bump_scope;
    cbn [SetHint do_Hint]; rewrite hint_ok_id, docs_of_bump_scope, Hnone;
    cbn [bind run service]; unfold result_of, world_of; by cbn [fst snd].
Qed.

(** The run of UpdateOne on every driver: one call, answered as is. *)
Lemma UpdateOne_run {W : Type} (h : Handler T W) (w : W) (db : Database)
  (c : string) (doc : T) :
  let out := run h (UpdateOne db c doc) w in
  ∃ ctx r,
    trace_of out =
      [ entry (Ctx_WithTimeout Background (10 * Second)%Z) ctx;
        entry (Coll_UpdateOne ctx (Database_Collection db c)
                 (FilterD [("_id", VObjectID (GetID doc))])
                 [("$set", VDoc doc)] []) r;
        entry (Ctx_cancel ctx) tt ]
    ∧ result_of out = r.
Proof.
  cbv zeta. expose. ask h. ask h. ask h. destruct r1. by exists r, r0.
Qed.

(** C2: on every driver, UpdateOne makes one UpdateOne call whose filter is
    the single element [_id] bound to [doc.GetID()], whose update is the
    single operator [$set] applied to the whole document, and which carries
    no option (so no upsert), and returns the driver's answer as it is.  On
    the reference service, reached through a live handle, when no stored
    document has that identifier the answer reports zero matched, modified
    and upserted, no error, and nothing stored changes. *)
Theorem UpdateOne_absent_identifier (w : World) (db : Database) (c : string)
  (doc : T) :
  coll_error w (Database_Collection db c) = None →
  Forall (fun r => raw_get "_id" r ≠ Some (SOid (GetID doc)))
    (docs_of w (Database_Collection db c)) →
  let out := run service (UpdateOne db c doc) w in
  result_of out =
    (Some {| MatchedCount := 0; ModifiedCount := 0;
             UpsertedCount := 0; UpsertedID := None |}, None)
  ∧ store (world_of out) = store w
  ∧ ∀ (W : Type) (h : Handler T W) (w' : W),
      let out' := run h (UpdateOne db c doc) w' in
      ∃ ctx r,
        trace_of out' =
          [ entry (Ctx_WithTimeout Background (10 * Second)%Z) ctx;
            entry (Coll_UpdateOne ctx (Database_Collection db c)
                     (FilterD [("_id", VObjectID (GetID doc))])
                     [("$set", VDoc doc)] []) r;
            entry (Ctx_cancel ctx) tt ]
        ∧ result_of out' = r.
Proof.
  intros Hlive Hno. cbv zeta.
  assert (Hnone : first_match (T := T) (FilterD [("_id", VObjectID (GetID doc))])
                    (docs_of w (Database_Collection db c)) = None).
  { apply first_match_None. eapply Forall_impl; [exact Hno |].
    intros r Hr. cbn beta in Hr.
    rewrite matches_id_D. by apply bool_decide_eq_false_2. }
  split; [| split; [| intros W h w'; apply UpdateOne_run]];
    expose; cbn [service svc_WithTimeout bind run];
    unfold svc_UpdateOne; cbn [set_fields];
    rewrite bool_decide_eq_true_2 by done;
    cbn [fmap option_fmap option_map];
    rewrite coll_error_bump_scope, Hlive, docs_of_bump_scope, Hnone;
    cbn [bind run service]; unfold result_of, world_of; by cbn [fst snd].
Qed.

(** The shape of every run of FindOne, on every driver. *)
Lemma FindOne_run {W : Type} (h : Handler T W) (w : W) (db : Database)
  (c : string) (filter : bsonD T) :
  let out := run h (FindOne db c filter) w in
  ∃ ctx sr d err,
    trace_of out =
      [ entry (Ctx_WithTimeout Background (10 * Second)%Z) ctx;
        entry (Coll_FindOne ctx (Database_Collection db c) (FilterD filter)) sr;
        entry (SingleResult_Decode sr) (d, err);
        entry (Ctx_cancel ctx) tt ]
    ∧ result_of out =
        match err with
        | Some e => (None, Some e)
        | None => (Some d, None)
        end.
Proof.
  cbv zeta. expose. ask h. ask h. ask h. destruct r1 as [d err].
  exists r, r0, d, err. destruct err; cbn [bind run]; ask h; by destruct r1.
Qed.

(** C8: on the reference service, reached through a live handle, FindOne
    with a filter that no stored document matches returns the driver's
    not-found error and no document.  On every driver, whatever error the
    decoding reports, not-found or any other, FindOne returns that very
    error value with a nil document, after the same four calls; it has no
    error of its own and no result that goes with an error. *)
Theorem FindOne_not_found_is_plain_error (w : World) (db : Database)
  (c : string) (filter : bsonD T) :
  coll_error w (Database_Collection db c) = None →
  Forall (fun r => matches (FilterD filter) r = false)
    (docs_of w (Database_Collection db c)) →
  result_of (run service (FindOne db c filter) w) = (None, Some ErrNoDocuments)
  ∧ ∀ (W : Type) (h : Handler T W) (w' : W) (db' : Database) (c' : string)
      (filter' : bsonD T),
      let out := run h (FindOne db' c' filter') w' in
      entry_kind <$> trace_of out = [KWithTimeout; KFindOne; KDecode; KCancel]
      ∧ (∀ en e, en ∈ trace_of out → entry_err en = Some e →
           result_of out = (None, Some e))
      ∧ (∀ e, (result_of out).2 = Some e →
           (result_of out).1 = None
           ∧ ∃ en, en ∈ trace_of out ∧ entry_kind en = KDecode
                   ∧ entry_err en = Some e).
Proof.
  intros Hlive Hno. split.
  - expose. cbn [service svc_WithTimeout bind run].
    unfold svc_FindOne. rewrite coll_error_bump_scope, Hlive, docs_of_bump_scope.
    rewrite find_None by done. by cbn.
  - intros W h w' db' c' filter'. cbv zeta.
    destruct (FindOne_run h w' db' c' filter') as (ctx & sr & d & err & -> & ->).
    split; [done |]. split.
    + intros en e Hin He. in_log; unfold entry_err, entry in He; cbn in He;
        by simplify_eq.
    + intros e He. destruct err as [e' |]; cbn in He; simplify_eq.
      split; [done |]. exists (entry (SingleResult_Decode sr) (d, Some e)).
      split; [| done]. by apply list_elem_of_lookup_2 with 2%nat.
Qed.

End OnService.

(** ** The order of the reference service *)

Lemma field_compare_antisym (a b : option Scalar) :
  field_compare b a = CompOpp (field_compare a b).
Proof.
  destruct a as [[x | x | x] |], b as [[y | y | y] |]; cbn;
    first [ apply Z.compare_antisym | apply String.compare_antisym | done ].
Qed.

Lemma doc_compare_antisym (spec : SortSpec) (a b : Raw) :
  doc_compare spec b a = CompOpp (doc_compare spec a b).
Proof.
  induction spec as [| [k asc] rest IH]; cbn; [done |].
  rewrite (field_compare_antisym (raw_get k a) (raw_get k b)).
  destruct asc, (field_compare (raw_get k a) (raw_get k b)); cbn; by rewrite ?IH.
Qed.

Lemma doc_le_total (spec : SortSpec) (a b : Raw) :
  doc_le spec a b ∨ doc_le spec b a.
Proof.
  unfold doc_le. rewrite (doc_compare_antisym spec a b).
  destruct (doc_compare spec a b); cbn; auto.
Qed.

Lemma place_elem_of (spec : SortSpec) (x y : Raw) (l : list Raw) :
  y ∈ place spec x l ↔ y = x ∨ y ∈ l.
Proof.
  induction l as [| z l IH]; cbn.
  - by rewrite list_elem_of_singleton, elem_of_nil; intuition.
  - case_decide; rewrite !elem_of_cons, ?IH; intuition.
Qed.

Lemma place_HdRel (spec : SortSpec) (x z : Raw) (l : list Raw) :
  doc_le spec z x → HdRel (doc_le spec) z l → HdRel (doc_le spec) z (place spec x l).
Proof.
  intros Hzx Hl. destruct l as [| y l]; cbn; [by constructor |].
  case_decide; constructor; [done |]. by inversion Hl.
Qed.

Lemma place_Sorted (spec : SortSpec) (x : Raw) (l : list Raw) :
  Sorted (doc_le spec) l → Sorted (doc_le spec) (place spec x l).
Proof.
  induction 1 as [| y l Hl IH Hy]; cbn.
  - by repeat constructor.
  - case_decide as Hxy.
    + by repeat constructor.
    + constructor; [done |]. apply place_HdRel; [| done].
      by destruct (doc_le_total spec x y).
Qed.

Lemma apply_sort_Sorted (spec : SortSpec) (l : list Raw) :
  Sorted (doc_le spec) (apply_sort spec l).
Proof.
  induction l as [| x l IH]; cbn; [constructor | by apply place_Sorted].
Qed.

Lemma apply_sort_elem_of (spec : SortSpec) (x : Raw) (l : list Raw) :
  x ∈ apply_sort spec l ↔ x ∈ l.
Proof.
  induction l as [| y l IH]; cbn; [done |].
  by rewrite place_elem_of, elem_of_cons, IH.
Qed.

Lemma place_length (spec : SortSpec) (x : Raw) (l : list Raw) :
  length (place spec x l) = S (length l).
Proof.
  induction l as [| y l IH]; cbn; [done |]. case_decide; cbn; by rewrite ?IH.
Qed.

Lemma place_Permutation (spec : SortSpec) (x : Raw) (l : list Raw) :
  place spec x l ≡ₚ x :: l.
Proof.
  induction l as [| y l IH]; cbn; [done |].
  case_decide; [done |]. rewrite IH. apply Permutation_swap.
Qed.

(** Sorting keeps every document, as often as it was there. *)
Lemma apply_sort_Permutation (spec : SortSpec) (l : list Raw) :
  apply_sort spec l ≡ₚ l.
Proof.
  induction l as [| x l IH]; cbn; [done |].
  fold (apply_sort spec l). by rewrite place_Permutation, IH.
Qed.

Lemma apply_sort_length (spec : SortSpec) (l : list Raw) :
  length (apply_sort spec l) = length l.
Proof.
  induction l as [| x l IH]; [done |].
  change (apply_sort spec (x :: l)) with (place spec x (apply_sort spec l)).
  cbn. by rewrite place_length, IH.
Qed.

Section Prefixes.
Context {A : Type} (R : A → A → Prop).

Lemma Sorted_drop (n : nat) (l : list A) : Sorted R l → Sorted R (drop n l).
Proof.
  revert l. induction n as [| n IH]; intros l Hl; [by rewrite drop_0 |].
  destruct l as [| x l]; cbn; [constructor |].
  apply IH. by inversion Hl.
Qed.

Lemma Sorted_take (n : nat) (l : list A) : Sorted R l → Sorted R (take n l).
Proof.
  revert l. induction n as [| n IH]; intros l Hl; [constructor |].
  destruct l as [| x l]; cbn; [constructor |].
  inversion Hl as [| ? ? Hs Hh]; subst. constructor; [by apply IH |].
  destruct l as [| y l], n; cbn; constructor. by inversion Hh.
Qed.

End Prefixes.

Lemma apply_limit_Sorted {R : Raw → Raw → Prop} (limit : option Z) (l : list Raw) :
  Sorted R l → Sorted R (apply_limit limit l).
Proof.
  intros Hl. destruct limit as [n |]; cbn; [| done].
  case_match; [done | by apply Sorted_take].
Qed.

Lemma apply_skip_Sorted {R : Raw → Raw → Prop} (skip : option Z) (l : list Raw) :
  Sorted R l → Sorted R (apply_skip skip l).
Proof.
  intros Hl. destruct skip as [n |]; cbn; [by apply Sorted_drop | done].
Qed.

Lemma apply_limit_length {A : Type} (n : Z) (l : list A) :
  (0 < n)%Z → (Z.of_nat (length (apply_limit (Some n) l)) ≤ n)%Z.
Proof.
  intros Hn. cbn. destruct (Z.eqb_spec n 0); [lia |].
  rewrite length_take. lia.
Qed.

Lemma apply_limit_subseteq {A : Type} (limit : option Z) (l : list A) :
  apply_limit limit l ⊆ l.
Proof.
  destruct limit as [n |]; cbn; [| done].
  case_match; [done | apply subseteq_take].
Qed.

Lemma apply_skip_subseteq {A : Type} (skip : option Z) (l : list A) :
  apply_skip skip l ⊆ l.
Proof.
  destruct skip as [n |]; cbn; [apply subseteq_drop | done].
Qed.

Section Finding.
Context {T : Type} `{Document T} `{Codec T}.

Lemma decode_all_ok (batch : list Raw) (ds : list T) :
  decode_all batch = (ds, None) →
  Forall2 (fun r d => unmarshal r = (d, None)) batch ds.
Proof.
  revert ds. induction batch as [| r batch IH]; intros ds; cbn.
  - intros [= <-]. constructor.
  - destruct (unmarshal r) as [d [e |]] eqn:Hr; [done |].
    destruct (decode_all batch) as [ds' e'] eqn:Hb.
    intros [= <- ->]. constructor; [done | by apply IH].
Qed.

Lemma decode_all_decodable (batch : list Raw) :
  Forall (fun r => (unmarshal r).2 = None) batch →
  (decode_all batch).2 = None.
Proof.
  induction 1 as [| r batch Hr _ IH]; cbn; [done |].
  destruct (unmarshal r) as [d e]; cbn in Hr; subst e.
  by destruct (decode_all batch).
Qed.

Lemma found_batch_Sorted w coll spec (fl : Filter T) skip limit :
  Sorted (doc_le spec) (found_batch w coll spec fl skip limit).
Proof.
  apply apply_limit_Sorted, apply_skip_Sorted, apply_sort_Sorted.
Qed.

Lemma found_batch_stored w coll spec (fl : Filter T) skip limit :
  found_batch w coll spec fl skip limit ⊆ docs_of w coll.
Proof.
  unfold found_batch.
  etrans; [apply apply_limit_subseteq |].
  etrans; [apply apply_skip_subseteq |].
  intros r. rewrite apply_sort_elem_of, list_elem_of_filter. tauto.
Qed.

(** The runs of Find on the reference service: refused, or answered with
    a cursor over the batch above, which is then decoded. *)
Lemma Find_service_run (w : World) (db : Database) (c : string)
  (sortModel fl : bsonD T) (skip limit : Z) :
  let coll := Database_Collection db c in
  let ctx := Scope (next_scope w) Background (10 * Second)%Z in
  let opts := {| fo_Sort := Some sortModel; fo_Skip := Some skip;
                 fo_Limit := Some limit |} in
  let out := run service (Find db c sortModel fl skip limit) w in
  (∃ e, result_of out = (None, Some e)
        ∧ (coll_error w coll = Some e ∨ sort_spec sortModel = None
           ∨ (skip < 0)%Z))
  ∨ (∃ spec,
       coll_error w coll = None ∧ sort_spec sortModel = Some spec
       ∧ (0 ≤ skip)%Z
       ∧ let cur := {| cursor_id := next_cursor w;
                       cursor_batch :=
                         found_batch w coll spec (FilterD fl) (Some skip)
                           (Some limit) |} in
         trace_of out =
           [ entry (Ctx_WithTimeout Background (10 * Second)%Z) ctx;
             entry (Coll_Find ctx coll (FilterD fl) opts) (inr cur);
             entry (Cursor_All ctx cur) (decode_all (cursor_batch cur));
             entry (Cursor_Close ctx cur) None;
             entry (Ctx_cancel ctx) tt ]
         ∧ result_of out =
             match decode_all (cursor_batch cur) with
             | (ds, None) => (Some ds, None)
             | (_, Some e) => (None, Some e)
             end).
Proof.
  cbv zeta. expose. cbn [service svc_WithTimeout bind run].
  unfold svc_Find. rewrite coll_error_bump_scope.
  change (found_batch (T := T) (bump_scope w)) with (found_batch (T := T) w).
  cbn [SetLimit SetSkip SetSort fo_Sort fo_Skip fo_Limit options_Find from_option id].
  destruct (coll_error w _) as [e |] eqn:Hlive; cbn [bind run].
  { left. exists e. cbn. auto. }
  destruct (sort_spec sortModel) as [spec |] eqn:Hspec; cbn [bind run].
  2: { left. eexists. cbn. split; [done | auto]. }
  case_bool_decide as Hskip; cbn [bind run].
  { left. eexists. cbn. split; [done | auto]. }
  right. exists spec. split; [done |]. split; [done |]. split; [lia |].
  cbn [service cursor_batch].
  destruct (decode_all _) as [ds [e |]]; cbn; done.
Qed.

(** The runs of Find on every driver: refused by the driver, or a cursor
    that is read to its end by [All] and closed before Find returns. *)
Lemma Find_run {W : Type} (h : Handler T W) (w : W) (db : Database)
  (c : string) (sortModel fl : bsonD T) (skip limit : Z) :
  let coll := Database_Collection db c in
  let opts := {| fo_Sort := Some sortModel; fo_Skip := Some skip;
                 fo_Limit := Some limit |} in
  let out := run h (Find db c sortModel fl skip limit) w in
  ∃ ctx,
    (∃ e,
       trace_of out =
         [ entry (Ctx_WithTimeout Background (10 * Second)%Z) ctx;
           entry (Coll_Find ctx coll (FilterD fl) opts) (inl e);
           entry (Ctx_cancel ctx) tt ]
       ∧ result_of out = (None, Some e))
    ∨ (∃ cur ds err closed,
         trace_of out =
           [ entry (Ctx_WithTimeout Background (10 * Second)%Z) ctx;
             entry (Coll_Find ctx coll (FilterD fl) opts) (inr cur);
             entry (Cursor_All ctx cur) (ds, err);
             entry (Cursor_Close ctx cur) closed;
             entry (Ctx_cancel ctx) tt ]
         ∧ result_of out =
             match err with
             | Some e => (None, Some e)
             | None => (Some ds, None)
             end).
Proof.
  cbv zeta. expose. ask h. exists r. ask h. destruct r0 as [e | cur]; cbn [bind run].
  - left. exists e. ask h. by destruct r0.
  - right. ask h. destruct r0 as [ds err]. exists cur, ds, err.
    destruct err; cbn [bind run]; ask h; ask h; destruct r1; by eexists.
Qed.

(** C5, as the code has it: on every driver, Find opens its cursor with the
    caller's filter, sort, skip and limit as they are, and the documents it
    returns are the whole slice that [cursor.All] filled from that cursor,
    the cursor being closed before Find returns.  On the reference service,
    the documents Find returns are the decodings, in order, of all the
    stored documents that match the filter, sorted by the caller's sort
    specification, without the first [skip] of them and cut after the limit
    when the limit is not zero: so with no skip and no limit every matching
    document is returned once, and with a limit N greater than zero at most
    N are (whatever the skip).  And Find does return documents when the
    handle is live, the sort specification well formed, the skip not
    negative and the stored documents decodable. *)
Theorem Find_materialized_sorted_bounded (w : World) (db : Database)
  (c : string) (sortModel fl : bsonD T) (skip limit : Z) :
  let coll := Database_Collection db c in
  let opts := {| fo_Sort := Some sortModel; fo_Skip := Some skip;
                 fo_Limit := Some limit |} in
  let out := run service (Find db c sortModel fl skip limit) w in
  let matching :=
    filter (fun r => matches (FilterD fl) r = true) (docs_of w coll) in
  (∀ ds, (result_of out).1 = Some ds →
     ((0 < limit)%Z → (Z.of_nat (length ds) ≤ limit)%Z)
     ∧ (skip = 0%Z → limit = 0%Z → length ds = length matching)
     ∧ ∃ spec sorted batch,
         sort_spec sortModel = Some spec
         ∧ sorted ≡ₚ matching
         ∧ Sorted (doc_le spec) sorted
         ∧ batch = (let rest := drop (Z.to_nat skip) sorted in
                    if (limit =? 0)%Z then rest
                    else take (Z.to_nat (Z.abs limit)) rest)
         ∧ Sorted (doc_le spec) batch
         ∧ Forall2 (fun r d => unmarshal r = (d, None)) batch ds)
  ∧ (coll_error w coll = None → sort_spec sortModel ≠ None → (0 ≤ skip)%Z →
     Forall (fun r => (unmarshal r).2 = None) (docs_of w coll) →
     ∃ ds, result_of out = (Some ds, None))
  ∧ ∀ (W : Type) (h : Handler T W) (w' : W),
      let out' := run h (Find db c sortModel fl skip limit) w' in
      (∀ en, en ∈ trace_of out' → entry_kind en = KFind →
         ∃ ctx r, en = entry (Coll_Find ctx coll (FilterD fl) opts) r)
      ∧ ∀ ds, (result_of out').1 = Some ds →
          ∃ ctx cur closed,
            [ entry (Cursor_All ctx cur) (ds, None);
              entry (Cursor_Close ctx cur) closed;
              entry (Ctx_cancel ctx) tt ]
            `suffix_of` trace_of out'.
Proof.
  cbv zeta. split; [| split].
  - intros ds Hds.
    destruct (Find_service_run w db c sortModel fl skip limit)
      as [(e & Hres & _) | (spec & Hlive & Hspec & Hskip & Htr & Hres)].
    { rewrite Hres in Hds. done. }
    cbv zeta in Hres. cbn [cursor_batch] in Hres. rewrite Hres in Hds.
    destruct (decode_all _) as [ds' [e |]] eqn:Hdec; cbn in Hds; simplify_eq.
    apply decode_all_ok in Hdec.
    pose proof (Forall2_length _ _ _ Hdec) as Hlen.
    split; [| split].
    + intros Hlimit. rewrite <- Hlen. by apply apply_limit_length.
    + intros -> ->. rewrite <- Hlen. unfold found_batch.
      cbn [apply_limit apply_skip Z.eqb Z.to_nat drop].
      apply Permutation_length, apply_sort_Permutation.
    + exists spec, (apply_sort spec
                      (filter (fun r => matches (FilterD fl) r = true)
                         (docs_of w (Database_Collection db c)))).
      exists (found_batch w (Database_Collection db c) spec (FilterD fl)
                (Some skip) (Some limit)).
      split; [done |]. split; [apply apply_sort_Permutation |].
      split; [apply apply_sort_Sorted |]. split; [reflexivity |].
      split; [apply found_batch_Sorted | exact Hdec].
  - intros Hlive Hspec Hskip Hdecodable.
    destruct (Find_service_run w db c sortModel fl skip limit)
      as [(e & Hres & [He | [He | He]]) | (spec & _ & _ & _ & Htr & Hres)];
      [congruence | done | lia |].
    cbv zeta in Hres. cbn [cursor_batch] in Hres. rewrite Hres.
    pose proof (decode_all_decodable
                  (found_batch w (Database_Collection db c) spec (FilterD fl)
                     (Some skip) (Some limit))) as Hd.
    destruct (decode_all _) as [ds e]. cbn [snd] in Hd. rewrite Hd; [by eexists |].
    eapply Forall_forall. intros r Hr.
    eapply Forall_forall in Hdecodable; [exact Hdecodable |].
    by eapply found_batch_stored.
  - intros W h w'. cbv zeta.
    destruct (Find_run h w' db c sortModel fl skip limit)
      as (ctx & [(e & -> & ->) | (cur & ds' & err & closed & -> & ->)]).
    + split; [| done]. intros en Hin Hk. in_log; try done. by eexists _, _.
    + split.
      * intros en Hin Hk. in_log; try done. by eexists _, _.
      * intros ds Hds. destruct err; cbn in Hds; simplify_eq.
        exists ctx, cur, closed. by eexists [_; _].
Qed.

End Finding.

Section RoundTrip.
Context {T : Type} `{Document T} `{Codec T}.

Lemma coll_error_set_docs w c docs c' :
  coll_error (set_docs w c docs) c' = coll_error w c'.
Proof. done. Qed.

Lemma coll_error_bump_oid w c : coll_error (bump_oid w) c = coll_error w c.
Proof. done. Qed.

Lemma docs_of_set_docs w c docs : docs_of (set_docs w c docs) c = docs.
Proof. unfold docs_of, set_docs. cbn. by rewrite lookup_insert_eq. Qed.

Lemma find_last (f : Filter T) (docs : list Raw) (r : Raw) :
  Forall (fun x => matches f x = false) docs → matches f r = true →
  List.find (matches f) (docs ++ [r]) = Some r.
Proof.
  intros Hno Hr. induction Hno as [| x docs Hx _ IH]; cbn.
  - by rewrite Hr.
  - by rewrite Hx.
Qed.

(** What a SaveOne that reports no error did on the reference service. *)
Lemma SaveOne_service_ok (w : World) (db : Database) (c : string) (doc : T) :
  let coll := Database_Collection db c in
  let out := run service (SaveOne db c doc) w in
  (result_of out).2 = None →
  coll_error w coll = None
  ∧ world_of out =
      set_docs (bump_oid (bump_scope w)) coll
        (docs_of w coll ++ [ensure_id (next_oid w) (marshal doc)])
  ∧ ∃ id, result_of out = (Some {| InsertedID := id |}, None)
          ∧ raw_get "_id" (ensure_id (next_oid w) (marshal doc)) = Some id.
Proof.
  cbv zeta. expose. cbn [service svc_WithTimeout bind run].
  unfold svc_InsertOne. rewrite coll_error_bump_scope, docs_of_bump_scope.
  destruct (coll_error w _) as [e |] eqn:Hlive; [done |].
  unfold insert_raw. cbn [next_oid bump_scope].
  destruct (raw_get "_id" (ensure_id _ _)) as [id |] eqn:Hid; [| done].
  destruct (existsb _ _); [done |]. cbn. intros _.
  split; [done |]. split; [done |]. by exists id.
Qed.

(** The run of SaveOne on every driver: one call, answered as is. *)
Lemma SaveOne_run {W : Type} (h : Handler T W) (w : W) (db : Database)
  (c : string) (doc : T) :
  let out := run h (SaveOne db c doc) w in
  ∃ ctx r,
    trace_of out =
      [ entry (Ctx_WithTimeout Background (10 * Second)%Z) ctx;
        entry (Coll_InsertOne ctx (Database_Collection db c) (box doc)) r;
        entry (Ctx_cancel ctx) tt ]
    ∧ result_of out = r.
Proof.
  cbv zeta. expose. ask h. ask h. ask h. destruct r1. by exists r, r0.
Qed.

(** C1, as the code has it: on every driver, SaveOne hands the document as
    it is to one InsertOne call and FindOne hands the filter as it is to one
    FindOne call, whose decoding it returns.  On the reference service,
    after a SaveOne that reported no error, a FindOne on the same collection
    with a filter that matches the document as stored, and that no document
    stored before it matches, returns the decoding of the stored document,
    that is the inserted document with the identifier the driver generated
    when it was sent without one.  The result is equal to the inserted
    document whenever the stored form decodes to it, as it does for a
    document sent with its identifier and a codec that reads back what it
    wrote. *)
Theorem SaveOne_then_FindOne (w : World) (db : Database) (c : string)
  (doc : T) (filter : bsonD T) :
  let coll := Database_Collection db c in
  let stored := ensure_id (next_oid w) (marshal doc) in
  let out1 := run service (SaveOne db c doc) w in
  let out2 := run service (FindOne db c filter) (world_of out1) in
  (result_of out1).2 = None →
  matches (FilterD filter) stored = true →
  Forall (fun r => matches (FilterD filter) r = false) (docs_of w coll) →
  docs_of (world_of out1) coll = docs_of w coll ++ [stored]
  ∧ result_of out2 =
      match unmarshal stored with
      | (d, None) => (Some d, None)
      | (_, Some e) => (None, Some e)
      end
  ∧ (unmarshal stored = (doc, None) → result_of out2 = (Some doc, None))
  ∧ (raw_get "_id" (marshal doc) ≠ None → unmarshal (marshal doc) = (doc, None) →
     result_of out2 = (Some doc, None))
  ∧ ∀ (W : Type) (h : Handler T W) (w' : W),
      (∃ ctx r,
         trace_of (run h (SaveOne db c doc) w') =
           [ entry (Ctx_WithTimeout Background (10 * Second)%Z) ctx;
             entry (Coll_InsertOne ctx coll (box doc)) r;
             entry (Ctx_cancel ctx) tt ]
         ∧ result_of (run h (SaveOne db c doc) w') = r)
      ∧ (∃ ctx sr d err,
           trace_of (run h (FindOne db c filter) w') =
             [ entry (Ctx_WithTimeout Background (10 * Second)%Z) ctx;
               entry (Coll_FindOne ctx coll (FilterD filter)) sr;
               entry (SingleResult_Decode sr) (d, err);
               entry (Ctx_cancel ctx) tt ]
           ∧ result_of (run h (FindOne db c filter) w') =
               match err with
               | Some e => (None, Some e)
               | None => (Some d, None)
               end).
Proof.
  cbv zeta. intros Hok Hmatch Hno.
  destruct (SaveOne_service_ok w db c doc Hok) as (Hlive & Hw & _).
  rewrite Hw, docs_of_set_docs. split; [done |].
  assert (Hres : result_of (run service (FindOne db c filter)
                   (set_docs (bump_oid (bump_scope w)) (Database_Collection db c)
                      (docs_of w (Database_Collection db c)
                       ++ [ensure_id (next_oid w) (marshal doc)])))
                 = match unmarshal (ensure_id (next_oid w) (marshal doc)) with
                   | (d, None) => (Some d, None)
                   | (_, Some e) => (None, Some e)
                   end).
  { expose. cbn [service svc_WithTimeout bind run].
    unfold svc_FindOne.
    rewrite coll_error_bump_scope, coll_error_set_docs, coll_error_bump_oid,
      coll_error_bump_scope, Hlive.
    rewrite docs_of_bump_scope, docs_of_set_docs, find_last by done.
    cbn [bind run service]. unfold svc_Decode. cbn [sr_err sr_raw].
    by destruct (unmarshal _) as [d [e |]]. }
  rewrite Hres. split; [done |]. split; [by intros -> |]. split.
  - intros Hid Hrt. unfold ensure_id.
    destruct (raw_get "_id" (marshal doc)); [| done]. by rewrite Hrt.
  - intros W h w'. split; [apply SaveOne_run | apply FindOne_run].
Qed.

End RoundTrip.

Section Updating.
Context {T : Type} `{Document T} `{Codec T}.

Lemma raw_get_raw_set (k k' : string) (s : Scalar) (r : Raw) :
  raw_get k (raw_set k' s r) = if decide (k' = k) then Some s else raw_get k r.
Proof.
  unfold raw_get. induction r as [| [k0 s0] r IH]; cbn.
  - repeat case_decide; try done; by case_bool_decide.
  - case_bool_decide as Hk0; cbn.
    + subst k0. case_decide as Hk.
      * by rewrite bool_decide_eq_true_2.
      * by rewrite !bool_decide_eq_false_2.
    + case_bool_decide as Hk0'; cbn; [| exact IH].
      subst k0. by rewrite decide_False.
Qed.

Lemma raw_get_app (k : string) (r1 r2 : Raw) :
  raw_get k (r1 ++ r2)
  = match raw_get k r1 with
    | Some s => Some s
    | None => raw_get k r2
    end.
Proof.
  unfold raw_get. induction r1 as [| [k0 s0] r1 IH]; cbn; [done |].
  by case_bool_decide.
Qed.

Lemma raw_get_raw_set_all (k : string) (fields r : Raw) :
  raw_get k (raw_set_all fields r)
  = match raw_get k (reverse fields) with
    | Some s => Some s
    | None => raw_get k r
    end.
Proof.
  revert r. induction fields as [| [k' s'] fields IH]; intros r; [done |].
  change (raw_set_all ((k', s') :: fields) r)
    with (raw_set_all fields (raw_set k' s' r)).
  rewrite IH, reverse_cons, raw_get_app.
  destruct (raw_get k (reverse fields)); [done |].
  rewrite raw_get_raw_set. unfold raw_get. cbn.
  case_decide; by case_bool_decide.
Qed.

(** When a stored document has the identifier, the reference service sets
    in the first such document every field of the encoding of [doc], keeps
    its other fields and reports one matched. *)
Lemma UpdateOne_present_identifier (w : World) (db : Database) (c : string)
  (doc : T) (i : nat) (old : Raw) :
  let coll := Database_Collection db c in
  let new := raw_set_all (marshal doc) old in
  let out := run service (UpdateOne db c doc) w in
  coll_error w coll = None →
  first_match (T := T) (FilterD [("_id", VObjectID (GetID doc))]) (docs_of w coll)
    = Some i →
  docs_of w coll !! i = Some old →
  raw_get "_id" new = raw_get "_id" old →
  result_of out =
    (Some {| MatchedCount := 1;
             ModifiedCount := if bool_decide (new = old) then 0 else 1;
             UpsertedCount := 0; UpsertedID := None |}, None)
  ∧ docs_of (world_of out) coll = <[i := new]> (docs_of w coll)
  ∧ ∀ k, raw_get k new
         = match raw_get k (reverse (marshal doc)) with
           | Some s => Some s
           | None => raw_get k old
           end.
Proof.
  cbv zeta. intros Hlive Hfirst Hold Hid.
  split; [| split; [| intros k; apply raw_get_raw_set_all]];
    expose; cbn [service svc_WithTimeout bind run];
    unfold svc_UpdateOne; cbn [set_fields]; cbv zeta;
    rewrite bool_decide_eq_true_2 by done;
    cbn [fmap option_fmap option_map];
    rewrite coll_error_bump_scope, Hlive, !docs_of_bump_scope, Hfirst;
    unfold Raw in *; rewrite Hold;
    cbn [from_option id]; rewrite app_nil_r;
    rewrite (bool_decide_eq_true_2 _ Hid);
    cbn [bind run service]; unfold result_of, world_of; cbn [fst snd];
    [done | by rewrite docs_of_set_docs].
Qed.

End Updating.

(** ** Errors and retries, over every driver *)

Section Answers.
Context {T : Type} `{Document T} {W : Type}.

(** Every entry of the log of a run is a call with the answer the driver
    gave it in some world. *)
Lemma run_entries {A : Type} (h : Handler T W) (P : Entry T → Prop)
  (p : Prog T A) (w : W) :
  (∀ c w', P (entry c (h c w').1)) → Forall P (trace_of (run h p w)).
Proof.
  intros HP. revert w. induction p as [a | c k IH]; intros w; cbn [run].
  - constructor.
  - pose proof (HP c w) as Hc. destruct (h c w) as [r w1]. specialize (IH r w1).
    destruct (run h (k r) w1) as [[a w2] tr]. constructor; done.
Qed.

(** On a driver whose cursor close reports no error, no entry of a log is a
    cursor close with an error. *)
Lemma close_never_fails {A : Type} (h : Handler T W) (p : Prog T A) (w : W) :
  (∀ ctx cur w', (h (Cursor_Close ctx cur) w').1 = None) →
  ∀ en, en ∈ trace_of (run h p w) → entry_kind en = KCursorClose →
        entry_err en = None.
Proof.
  intros Hclose en Hin.
  pose proof (run_entries h
                (fun en => entry_kind en = KCursorClose → entry_err en = None)
                p w) as Hall.
  eapply Forall_forall in Hall; [exact Hall | | exact Hin].
  intros c w'. destruct c; cbn; try done. intros _. apply Hclose.
Qed.

End Answers.

Section Surfacing.
Context {T : Type} `{Document T} `{Codec T} {W : Type}.

(** C9, as the code has it: every operation makes each call at most once,
    whatever the driver answers; an error an operation returns is the very
    value one of its driver calls reported; and an error reported by any
    call is the error the operation returns.  The one call whose answer the
    code does not look at is the deferred close of Find's cursor, which
    runs after [All] has read the cursor to its end: on every driver the
    error of every other call is returned, and on every driver that
    answers no error to that close, as the reference service does, the
    error of every call is. *)
Theorem calls_once_errors_as_reported (h : Handler T W) (w : W)
  (op : Operation T) :
  let out := run h (invoke op) w in
  NoDup (entry_kind <$> trace_of out)
  ∧ (∀ e, result_of out = Some e →
       ∃ en, en ∈ trace_of out
             ∧ driver_kind (entry_kind en) = true ∧ entry_err en = Some e)
  ∧ (∀ en e, en ∈ trace_of out → entry_kind en ≠ KCursorClose →
       entry_err en = Some e → result_of out = Some e)
  ∧ ((∀ ctx cur w', (h (Cursor_Close ctx cur) w').1 = None) →
     ∀ en e, en ∈ trace_of out → entry_err en = Some e →
             result_of out = Some e)
  ∧ ∀ w0 : World,
      let out0 := run service (invoke op) w0 in
      ∀ en e, en ∈ trace_of out0 → entry_err en = Some e →
              result_of out0 = Some e.
Proof.
  cbv zeta.
  assert (Hfull : ∀ (W' : Type) (h' : Handler T W') (w' : W'),
             (∀ ctx cur w1, (h' (Cursor_Close ctx cur) w1).1 = None) →
             ∀ en e, en ∈ trace_of (run h' (invoke op) w') →
                     entry_err en = Some e →
                     result_of (run h' (invoke op) w') = Some e).
  { intros W' h' w' Hclose en e Hin He.
    apply (proj2 (invoke_errors h' w' op) en e Hin); [| exact He].
    intros Hk.
    pose proof (close_never_fails h' (invoke op) w' Hclose en Hin Hk).
    congruence. }
  split; [apply invoke_NoDup |].
  split; [apply invoke_errors |].
  split; [apply invoke_errors |].
  split; [apply Hfull |].
  intros w0. by apply Hfull.
Qed.

End Surfacing.

(** ** The example, run on the reference service *)

Import example.
Local Open Scope Z_scope.

Example connected_world :
  sessions connected = [0%nat] ∧ store connected = ∅
  ∧ coll_error connected (Database_Collection test_db "users") = None.
Proof. by vm_compute. Qed.

Example stocked_world :
  docs_of stocked (Database_Collection test_db "users")
  = [[("_id", SOid 1000); ("name", SStr "John Doe")]].
Proof. by vm_compute. Qed.

(** C1, counterexample: the example's own round trip.  John Doe is saved
    without an identifier and found by name; the document found carries the
    generated identifier and is not equal to the one inserted. *)
Lemma example_round_trip_changes_identifier :
  let filter : bsonD User := [("name", VString "John Doe")] in
  let out1 := run service (SaveOne test_db "users" John) connected in
  let out2 := run service (FindOne test_db "users" filter) (world_of out1) in
  docs_of connected (Database_Collection test_db "users") = []
  ∧ result_of out1 = (Some {| InsertedID := SOid 1000 |}, None)
  ∧ matches (FilterD filter) (marshal John) = true
  ∧ result_of out2 = (Some {| ID := 1000; Name := "John Doe" |}, None)
  ∧ {| ID := 1000; Name := "John Doe" |} ≠ John.
Proof. cbv zeta. repeat split; [by vm_compute .. | discriminate]. Qed.

(** C1, witness: Jane Roe is saved with her identifier and found by name
    as she was saved. *)
Lemma SaveOne_then_FindOne_witness :
  let filter : bsonD User := [("name", VString "Jane Roe")] in
  let out1 := run service (SaveOne test_db "users" Jane) stocked in
  let out2 := run service (FindOne test_db "users" filter) (world_of out1) in
  result_of out2 = (Some Jane, None).
Proof.
  cbv zeta.
  refine (proj1 (proj2 (proj2
    (SaveOne_then_FindOne stocked test_db "users" Jane
       [("name", VString "Jane Roe")] _ _ _))) _).
  - by vm_compute.
  - by vm_compute.
  - repeat constructor.
  - by vm_compute.
Defined.

(** C2, witness: an update of a user whose identifier is not in the
    collection of the example. *)
Lemma UpdateOne_absent_identifier_witness :
  let out := run service (UpdateOne test_db "users" Jane) stocked in
  result_of out =
    (Some {| MatchedCount := 0; ModifiedCount := 0;
             UpsertedCount := 0; UpsertedID := None |}, None)
  ∧ store (world_of out) = store stocked.
Proof.
  cbv zeta.
  assert (Hlive : coll_error stocked (Database_Collection test_db "users") = None)
    by (by vm_compute).
  assert (Hno : Forall (fun r => raw_get "_id" r ≠ Some (SOid (GetID Jane)))
                  (docs_of stocked (Database_Collection test_db "users")))
    by (repeat constructor; by vm_compute).
  pose proof (UpdateOne_absent_identifier stocked test_db "users" Jane Hlive Hno)
    as (Hres & Hstore & _).
  exact (conj Hres Hstore).
Defined.

(** C6, witness: a delete of an identifier that is not in the collection of
    the example. *)
Lemma DeleteOne_absent_identifier_witness :
  let out := run service (DeleteOne (T := User) test_db "users" 77) stocked in
  result_of out = (Some {| DeletedCount := 0 |}, None)
  ∧ store (world_of out) = store stocked.
Proof.
  cbv zeta.
  assert (Hlive : coll_error stocked (Database_Collection test_db "users") = None)
    by (by vm_compute).
  assert (Hno : Forall (fun r => raw_get "_id" r ≠ Some (SOid 77))
                  (docs_of stocked (Database_Collection test_db "users")))
    by (repeat constructor; by vm_compute).
  pose proof (DeleteOne_absent_identifier (T := User) stocked test_db "users" 77
                Hlive Hno) as (Hres & Hstore & _).
  exact (conj Hres Hstore).
Defined.

(** C8, witness: nobody of that name is stored. *)
Lemma FindOne_not_found_witness :
  result_of (run service
               (FindOne (T := User) test_db "users" [("name", VString "Nobody")])
               stocked)
  = (None, Some ErrNoDocuments).
Proof.
  refine (proj1 (FindOne_not_found_is_plain_error stocked test_db "users"
                   [("name", VString "Nobody")] _ _)).
  - by vm_compute.
  - repeat constructor.
Defined.

(** C5, counterexample: with skip 0 and limit 0 the reference service
    returns the one stored document, which is more than zero documents. *)
Lemma Find_limit_zero_returns_all :
  let out := run service
               (Find (T := User) test_db "users" [("name", VInt 1)] [] 0 0)
               stocked in
  result_of out = (Some [{| ID := 1000; Name := "John Doe" |}], None)
  ∧ ¬ (Z.of_nat (length [{| ID := 1000; Name := "John Doe" |}]) ≤ 0).
Proof. cbv zeta. split; [by vm_compute | cbn; lia]. Qed.

(** C5, witness: the listing of the example, sorted by name, skip 0,
    limit 10. *)
Lemma Find_materialized_sorted_bounded_witness :
  let out := run service
               (Find (T := User) test_db "users" [("name", VInt 1)] [] 0 10)
               stocked in
  ∃ ds, result_of out = (Some ds, None).
Proof.
  cbv zeta.
  refine (proj1 (proj2
    (Find_materialized_sorted_bounded stocked test_db "users"
       [("name", VInt 1)] [] 0 10)) _ _ _ _).
  - by vm_compute.
  - by vm_compute.
  - lia.
  - repeat constructor.
Defined.

(** C9, witness: a listing asked through the handle of the example before
    any session is open.  The reference service answers no error to the
    close of a cursor, and the error its Find reports is what the helper
    returns. *)
Lemma calls_once_errors_as_reported_witness :
  let op := Op_Find (T := User) test_db "users" [("name", VInt 1)] [] 0 10 in
  let out := run service (invoke op) fresh in
  let ctx := Scope 0 Background (10 * Second) in
  let opts := {| fo_Sort := Some [("name", VInt 1)]; fo_Skip := Some 0;
                 fo_Limit := Some 10 |} in
  let en := entry (T := User)
              (Coll_Find ctx (Database_Collection test_db "users") (FilterD [])
                 opts)
              (inl ErrClientDisconnected) in
  en ∈ trace_of out ∧ result_of out = Some ErrClientDisconnected.
Proof.
  cbv zeta.
  set (op := Op_Find (T := User) test_db "users" [("name", VInt 1)] [] 0 10).
  set (en := entry _ _).
  assert (Hclose : ∀ ctx cur w',
             (service (T := User) (Cursor_Close ctx cur) w').1 = None) by done.
  assert (Hin : en ∈ trace_of (run service (invoke op) fresh))
    by (apply list_elem_of_lookup_2 with 1%nat; by vm_compute).
  assert (Herr : entry_err en = Some ErrClientDisconnected) by done.
  pose proof (calls_once_errors_as_reported service fresh op)
    as (_ & _ & _ & Hall & _).
  exact (conj Hin (Hall Hclose en ErrClientDisconnected Hin Herr)).
Defined.

(** C10, witness: a connection string on which nothing answers.  The
    session is made, the ping fails, and the session stays among the open
    ones of the service. *)
Lemma NewMongoHandler_ping_failure_witness :
  let url := "mongodb://unreachable.invalid:27017" in
  let out := run service (NewMongoHandler (T := User) "test_db" url) fresh in
  result_of out = (None, Some ServerSelectionError)
  ∧ count_kind KDisconnect (trace_of out) = 0%nat
  ∧ sessions (world_of out) = [0%nat].
Proof.
  cbv zeta.
  pose proof (NewMongoHandler_ping_failure_keeps_session
                (T := User) service fresh "test_db"
                "mongodb://unreachable.invalid:27017"
                (Scope 0 Background (10 * Second))
                {| client_id := 0; client_uri := "mongodb://unreachable.invalid:27017" |}
                ServerSelectionError
                (bump_scope fresh) (open_session (bump_scope fresh))
                (open_session (bump_scope fresh))
                eq_refl eq_refl eq_refl) as (Hres & _ & Hnone & Hworld).
  split; [exact Hres |]. split; [exact Hnone |]. by rewrite Hworld.
Defined.

(** * Further properties of the helpers *)

Section MoreOnEveryDriver.
Context {T : Type} `{Document T} {W : Type}.
Implicit Types (h : Handler T W) (w : W).

(** X1: on every driver, CreateIndex makes one CreateOne call on the named
    collection, with the caller's model as the keys of the index and a
    server-side time bound equal to the ten seconds of its scope; the name
    of the index that the driver answers is dropped and the error it
    answers, nil or not, is what CreateIndex returns. *)
Theorem CreateIndex_returns_driver_error h w (db : Database) (c : string)
  (model : bsonD T) :
  let out := run h (CreateIndex db c model) w in
  ∃ ctx name err,
    trace_of out =
      [ entry (Ctx_WithTimeout Background (10 * Second)) ctx;
        entry (Indexes_CreateOne ctx (Database_Collection db c)
                 {| Keys := model |} {| cio_MaxTime := Some (10 * Second) |})
              (name, err);
        entry (Ctx_cancel ctx) tt ]
    ∧ result_of out = err.
Proof.
  cbv zeta. expose. ask h. ask h. destruct r0 as [name err].
  cbn [bind run]. ask h. destruct r0. by exists r, name, err.
Qed.

(** X2: on every driver, when NewMongoHandler returns a handle, Close on
    that handle makes one Disconnect call, on the very client that Connect
    answered, in a scope of its own, and returns what Disconnect reported. *)
Theorem Close_disconnects_connected_client h w (dbName url : string)
  (hd : MongoHandler) :
  let out1 := run h (NewMongoHandler dbName url) w in
  let out2 := run h (Close hd) (world_of out1) in
  (result_of out1).1 = Some hd →
  ∃ ctx1 cl ctx2 closed,
    entry (Mongo_Connect ctx1 (ApplyURI url options_Client)) (inr cl)
      ∈ trace_of out1
    ∧ trace_of out2 =
        [ entry (Ctx_WithTimeout Background (10 * Second)) ctx2;
          entry (Client_Disconnect ctx2 cl) closed;
          entry (Ctx_cancel ctx2) tt ]
    ∧ result_of out2 = closed.
Proof.
  cbv zeta. intros Hhd.
  destruct (NewMongoHandler_run h w dbName url)
    as (ctx & rc & [(e & -> & Htr & Hres) | (cl & rp & -> & Htr & Hres)]);
    rewrite Hres in Hhd; [done |].
  destruct rp as [e |]; cbn in Hhd; simplify_eq.
  exists ctx, cl. rewrite Htr.
  generalize (world_of (run h (NewMongoHandler dbName url) w)). intros w1.
  expose. ask h. ask h. ask h. destruct r1. exists r, r0.
  split; [| done]. by apply list_elem_of_lookup_2 with 1%nat.
Qed.

(** X3: on every driver, Find touches a cursor only if the driver's Find
    answered one: then [All] and [Close] are called on that very cursor,
    [Close] after [All] and as the last act before the scope is released,
    whether or not [All] reported an error; when the driver's Find reports
    an error, no cursor call is made at all. *)
Theorem Find_closes_its_cursor h w (db : Database) (c : string)
  (sortModel fl : bsonD T) (skip limit : Z) :
  let out := run h (Find db c sortModel fl skip limit) w in
  let tr := trace_of out in
  count_kind KFind tr = 1%nat
  ∧ (∀ en, en ∈ tr → entry_kind en = KFind → entry_err en = None →
       ∃ ctx o cur r closed,
         en = entry (Coll_Find ctx (Database_Collection db c) (FilterD fl) o)
                (inr cur)
         ∧ [ entry (Cursor_All ctx cur) r;
             entry (Cursor_Close ctx cur) closed;
             entry (Ctx_cancel ctx) tt ] `suffix_of` tr)
  ∧ (∀ en, en ∈ tr → entry_kind en = KFind → entry_err en ≠ None →
       count_kind KAll tr = 0%nat ∧ count_kind KCursorClose tr = 0%nat).
Proof.
  cbv zeta.
  destruct (Find_run h w db c sortModel fl skip limit)
    as (ctx & [(e & -> & _) | (cur & ds & err & closed & -> & _)]).
  - split; [done |]. split.
    + intros en Hin Hk He. in_log; done.
    + intros en Hin Hk He. done.
  - split; [done |]. split.
    + intros en Hin Hk He. in_log; try done.
      eexists ctx, _, cur, _, closed. split; [done |]. by eexists [_; _].
    + intros en Hin Hk He. in_log; done.
Qed.

(** X4: on every driver, FindOne and Find return either a value and a nil
    error or a nil value and an error, never both and never neither; in
    particular what [Decode] or [All] had written when it reported an error
    is not returned. *)
Theorem FindOne_Find_value_or_error h w (db : Database) (c : string)
  (sortModel fl : bsonD T) (skip limit : Z) :
  let one := run h (FindOne db c fl) w in
  let many := run h (Find db c sortModel fl skip limit) w in
  ((result_of one).1 = None ↔ (result_of one).2 ≠ None)
  ∧ ((result_of many).1 = None ↔ (result_of many).2 ≠ None)
  ∧ (∀ sr d e, entry (SingleResult_Decode sr) (d, Some e) ∈ trace_of one →
       result_of one = (None, Some e))
  ∧ (∀ ctx cur ds e, entry (Cursor_All ctx cur) (ds, Some e) ∈ trace_of many →
       result_of many = (None, Some e)).
Proof.
  cbv zeta.
  destruct (FindOne_run h w db c fl) as (ctx1 & sr & d & err & -> & ->).
  destruct (Find_run h w db c sortModel fl skip limit)
    as (ctx & [(e & -> & ->) | (cur & ds & err' & closed & -> & ->)]).
  all: repeat split;
    try (destruct err; cbn; intros; congruence);
    try (destruct err'; cbn; intros; congruence);
    try (cbn; intros; congruence).
  all: intros; in_log;
    match goal with
    | E : entry _ _ = entry _ _ |- _ =>
        apply (f_equal entry_err) in E; unfold entry_err, entry in E;
        cbn in E; simplify_eq; done
    end.
Qed.

(** X5: on every driver and for every operation: only NewMongoHandler
    connects or pings, only Close disconnects, FindOne and Find (like
    NewMongoHandler and Close) never make a call that writes to a
    collection, and each of CreateIndex, SaveOne, SaveMany, UpdateOne and
    DeleteOne makes exactly one such call on every path. *)
Theorem helpers_keep_to_their_calls h w (op : Operation T) :
  let kinds := entry_kind <$> trace_of (run h (invoke op) w) in
  (KConnect ∈ kinds ∨ KPing ∈ kinds → ∃ d u, op = Op_NewMongoHandler d u)
  ∧ (KDisconnect ∈ kinds → ∃ hd, op = Op_Close hd)
  ∧ length (filter (fun k => write_kind k = true) kinds)
    = match op with
      | Op_NewMongoHandler _ _ | Op_FindOne _ _ _ | Op_Find _ _ _ _ _ _
      | Op_Close _ => 0%nat
      | _ => 1%nat
      end.
Proof.
  cbv zeta.
  destruct op; cbn [invoke]; rewrite ?run_returned_error; unfold trace_of;
    cbn [snd]; expose; cbv zeta;
    repeat (ask h;
            try match goal with
              | r : (_ + _)%type |- _ => destruct r
              | r : (_ * option error)%type |- _ => destruct r as [? [?|]]
              | r : option error |- _ => destruct r
              end; cbn [bind run]);
    cbn;
    (split; [intros [Hin | Hin]; in_log; by eauto
            | split; [intros Hin; in_log; by eauto | done]]).
Qed.

End MoreOnEveryDriver.

(** ** The example program, on every driver *)

Section MainOnEveryDriver.
Context {W : Type}.
Implicit Types (h : Handler User W) (w : W).

Ltac run_main h :=
  unfold main, defer_in_main, log_Fatal; expose; cbv zeta;
  repeat (ask h;
          try match goal with
            | r : (_ + _)%type |- _ => destruct r
            | r : (_ * option error)%type |- _ => destruct r as [? [?|]]
            | r : option error |- _ => destruct r
            | r : unit |- _ => destruct r
            end; cbn [bind run snd fst]).

(** X6: on every driver, [main] never dereferences a nil handler: whenever
    NewMongoHandler reports no error, the handler it returned is there. *)
Theorem main_never_panics h w :
  (result_of (run h main w)).2 ≠ Panicked.
Proof. run_main h; by cbn. Qed.

(** X7: on every driver, [main] disconnects exactly when it returns: then
    the last three entries of the log are the scope, the Disconnect of the
    client that Connect answered, and the release of the scope, whatever
    Disconnect reports; when [main] ends by [log.Fatal], after the session
    was made or not, the log holds no Disconnect. *)
Theorem main_disconnects_iff_returns h w :
  let out := run h main w in
  let tr := trace_of out in
  ((result_of out).2 = Returned →
     count_kind KDisconnect tr = 1%nat
     ∧ ∃ ctx1 cl ctx2 closed,
         entry (Mongo_Connect ctx1
                  (ApplyURI "mongodb://localhost:27017" options_Client))
               (inr cl) ∈ tr
         ∧ [ entry (Ctx_WithTimeout Background (10 * Second)) ctx2;
             entry (Client_Disconnect ctx2 cl) closed;
             entry (Ctx_cancel ctx2) tt ] `suffix_of` tr)
  ∧ ((result_of out).2 ≠ Returned → count_kind KDisconnect tr = 0%nat).
Proof.
  cbv zeta. run_main h; unfold result_of, trace_of; cbn [fst snd];
    (split; [intros Hend; try done | intros Hend; try done]).
  all: split; [done |].
  all: eexists _, _, _, _; split;
    [ apply list_elem_of_lookup_2 with 1%nat; reflexivity
    | match goal with
      | |- _ `suffix_of` ?l =>
          exists (take (length l - 3) l); reflexivity
      end ].
Qed.

Ltac refute_with Hall l :=
  match l with
  | ?x :: ?l' =>
      first
        [ let Hx := fresh "Hx" in
          assert (entry_err x = None) as Hx
            by (apply Hall; [apply list_elem_of_In; cbn; auto 20 | done | done]);
          cbn in Hx; discriminate Hx
        | refute_with Hall l' ]
  end.

(** X8: on every driver, [main] returns exactly when no call of its
    helpers reported an error (the errors of the deferred cursor close and
    of the final Disconnect are dropped); it has then logged three lines:
    the insert result, the user found and the users listed, the last two
    never nil.  Otherwise it exits with status 1 after at most two such
    lines and one last line carrying an error that a driver call of the run
    reported. *)
Theorem main_logs_until_first_error h w :
  let out := run h main w in
  let lines := (result_of out).1 in
  let ending := (result_of out).2 in
  let tr := trace_of out in
  (ending = Returned ↔
     ∀ en, en ∈ tr → entry_kind en ≠ KCursorClose →
           entry_kind en ≠ KDisconnect → entry_err en = None)
  ∧ (ending = Returned →
       ∃ r u us,
         lines = [Printf_result r; Printf_user (Some u); Printf_users (Some us)])
  ∧ (ending ≠ Returned →
       ending = Exited 1
       ∧ ∃ before e en,
           lines = before ++ [Fatal_error e]
           ∧ (length before ≤ 2)%nat
           ∧ Forall (fun l => ∀ e', l ≠ Fatal_error e') before
           ∧ en ∈ tr ∧ entry_err en = Some e).
Proof.
  cbv zeta. run_main h; unfold result_of, trace_of; cbn [fst snd].
  all: split;
    [ split;
      [ intros Hend; try done; intros en Hin Hc Hd; in_log; done
      | intros Hall; try done;
        match goal with
        | Hall : ∀ en, en ∈ ?l → _ |- _ => exfalso; refute_with Hall l
        end ]
    | ].
  all: split; [intros Hend; first [done | by eexists _, _, _] |].
  all: intros Hend; first [done | split; [done |]].
  all: match goal with
       | |- ∃ before e en, ?bs ++ [Fatal_error ?e0] = _ ∧ _ =>
           exists bs, e0
       | |- ∃ before e en, [Fatal_error ?e0] = _ ∧ _ =>
           exists [], e0
       end.
  all: match goal with
       | |- ∃ en, _ ∧ _ ∧ _ ∧ en ∈ ?l ∧ _ =>
           let rec go l :=
             match l with
             | ?x :: ?l' =>
                 first [ exists x; split; [reflexivity |];
                         split; [cbn; lia |];
                         split; [repeat constructor; intros; discriminate |];
                         split; [apply list_elem_of_In; cbn; auto 20
                                | reflexivity ]
                       | go l' ]
             end in go l
       end.
Qed.

End MainOnEveryDriver.

(** ** More on the reference service *)

(** Reading a field of a world through the updates of the service. *)
Ltac world_simpl :=
  cbn [sessions reachable next_client next_scope next_oid next_cursor indexes
       store bump_scope bump_oid bump_cursor open_session close_session
       set_docs add_index] in *.

Lemma raw_get_nil (k : string) : raw_get k [] = None.
Proof. done. Qed.

Lemma raw_get_cons (k k' : string) (s : Scalar) (r : Raw) :
  raw_get k ((k', s) :: r) = if decide (k' = k) then Some s else raw_get k r.
Proof. unfold raw_get. cbn. by repeat case_decide; case_bool_decide. Qed.

(** X9: the encoding of the example's user, as its struct tags ask for it,
    reads back as the same user, identifier zero or not; the identifier
    field is written exactly when it is not zero, and it is then the value
    of [GetID]; and a user sent without identifier, once the driver has
    added one, reads back as that user with the added identifier. *)
Theorem User_codec_round_trip (u : User) (oid : ObjectID) :
  unmarshal (marshal u) = (u, None)
  ∧ raw_get "_id" (marshal u)
    = (if bool_decide (GetID u = NilObjectID) then None
       else Some (SOid (GetID u)))
  ∧ unmarshal (ensure_id oid (marshal u))
    = ({| ID := if bool_decide (GetID u = NilObjectID) then oid else ID u;
          Name := Name u |}, None).
Proof.
  destruct u as [i n].
  cbn [GetID User_Document ID Name marshal unmarshal User_Codec].
  unfold User_marshal, User_unmarshal, ensure_id. cbn [ID Name].
  case_bool_decide as Hi; cbn [app]; rewrite ?raw_get_cons, ?raw_get_nil;
    repeat first [ rewrite decide_True by done | rewrite decide_False by done ];
    rewrite ?raw_get_cons, ?raw_get_nil;
    repeat first [ rewrite decide_True by done | rewrite decide_False by done ];
    by subst.
Qed.

Section ServiceRuns.
Context {T : Type} `{Document T} `{Codec T}.

Lemma NewMongoHandler_on_service (w : World) (dbName url : string) :
  String.prefix "mongodb://" url || String.prefix "mongodb+srv://" url = true →
  url ∈ reachable w →
  let out := run (service (T := T)) (NewMongoHandler dbName url) w in
  result_of out
  = (Some {| DB := Client_Database
                     {| client_id := next_client w; client_uri := url |}
                     dbName |}, None)
  ∧ world_of out = open_session (bump_scope w).
Proof.
  intros Hscheme Hreach. cbv zeta. expose. cbn [service svc_WithTimeout bind run].
  unfold svc_Connect. cbn [ApplyURI co_uri from_option id]. rewrite Hscheme.
  cbn [bind run service]. unfold svc_Ping, session_error. world_simpl.
  cbn [client_id client_uri].
  rewrite bool_decide_eq_true_2 by apply list_elem_of_here.
  rewrite bool_decide_eq_true_2 by done.
  by cbn [bind run service].
Qed.

Lemma SaveOne_on_service (w : World) (db : Database) (c : string) (doc : T)
  (id : Scalar) (docs' : list Raw) :
  coll_error w (Database_Collection db c) = None →
  insert_raw (next_oid w) (marshal doc) (docs_of w (Database_Collection db c))
  = inr (id, docs') →
  let out := run service (SaveOne db c doc) w in
  result_of out = (Some {| InsertedID := id |}, None)
  ∧ world_of out
    = set_docs (bump_oid (bump_scope w)) (Database_Collection db c) docs'.
Proof.
  intros Hlive Hins. cbv zeta. expose. cbn [service svc_WithTimeout bind run].
  unfold svc_InsertOne. rewrite coll_error_bump_scope, Hlive, docs_of_bump_scope.
  world_simpl. rewrite Hins. by cbn [bind run service].
Qed.

Lemma FindOne_on_service (w : World) (db : Database) (c : string)
  (fl : bsonD T) (r : Raw) :
  coll_error w (Database_Collection db c) = None →
  List.find (matches (FilterD fl)) (docs_of w (Database_Collection db c)) = Some r →
  let out := run service (FindOne db c fl) w in
  result_of out
  = match unmarshal r with
    | (d, None) => (Some d, None)
    | (_, Some e) => (None, Some e)
    end
  ∧ world_of out = bump_scope w.
Proof.
  intros Hlive Hfind. cbv zeta. expose. cbn [service svc_WithTimeout bind run].
  unfold svc_FindOne. rewrite coll_error_bump_scope, Hlive, docs_of_bump_scope, Hfind.
  cbn [bind run service]. unfold svc_Decode. cbn [sr_err sr_raw].
  by destruct (unmarshal r) as [d [e |]].
Qed.

Lemma Find_on_service (w : World) (db : Database) (c : string)
  (sortModel fl : bsonD T) (skip limit : Z) (spec : SortSpec) :
  coll_error w (Database_Collection db c) = None →
  sort_spec sortModel = Some spec →
  (0 ≤ skip)%Z →
  let out := run service (Find db c sortModel fl skip limit) w in
  result_of out
  = match decode_all (found_batch w (Database_Collection db c) spec
                        (FilterD fl) (Some skip) (Some limit)) with
    | (ds, None) => (Some ds, None)
    | (_, Some e) => (None, Some e)
    end
  ∧ world_of out = bump_cursor (bump_scope w).
Proof.
  intros Hlive Hspec Hskip. cbv zeta. expose. cbn [service svc_WithTimeout bind run].
  unfold svc_Find. rewrite coll_error_bump_scope, Hlive.
  change (found_batch (T := T) (bump_scope w)) with (found_batch (T := T) w).
  cbn [SetLimit SetSkip SetSort fo_Sort fo_Skip fo_Limit options_Find from_option id].
  rewrite Hspec. rewrite bool_decide_eq_false_2 by lia.
  cbn [bind run service cursor_batch].
  by destruct (decode_all _) as [ds [e |]].
Qed.

Lemma Close_on_service (w : World) (hd : MongoHandler) :
  client_id (Database_Client (DB hd)) ∈ sessions w →
  let out := run (service (T := T)) (Close hd) w in
  result_of out = None
  ∧ world_of out
    = close_session (client_id (Database_Client (DB hd))) (bump_scope w).
Proof.
  intros Hopen. cbv zeta. expose. cbn [service svc_WithTimeout bind run].
  unfold svc_Disconnect. world_simpl. rewrite bool_decide_eq_true_2 by done.
  by cbn [bind run service].
Qed.

Lemma DeleteOne_on_service (w : World) (db : Database) (c : string)
  (id : ObjectID) (i : nat) :
  coll_error w (Database_Collection db c) = None →
  first_match (T := T) (FilterM {[ "_id" := VObjectID id ]})
    (docs_of w (Database_Collection db c)) = Some i →
  let out := run (service (T := T)) (DeleteOne db c id) w in
  result_of out = (Some {| DeletedCount := 1 |}, None)
  ∧ world_of out
    = set_docs (bump_scope w) (Database_Collection db c)
        (delete i (docs_of w (Database_Collection db c))).
Proof.
  intros Hlive Hfirst. cbv zeta. expose. cbn [service svc_WithTimeout bind run].
  unfold svc_DeleteOne.
  rewrite coll_error_bump_scope, Hlive, hint_ok_bump_scope.
  cbn [SetHint do_Hint]. rewrite (hint_ok_id (T := T)). cbv zeta.
  rewrite !docs_of_bump_scope, Hfirst. by cbn [bind run service].
Qed.

End ServiceRuns.

(** Replace a run by its result and world, as a lemma above gives them. *)
Ltac use_run Hlem :=
  let Hr := fresh "Hr" in
  let Hw := fresh "Hw" in
  pose proof Hlem as [Hr Hw]; cbv zeta in Hr, Hw;
  match type of Hr with
  | result_of (run ?h ?p ?w) = _ =>
      destruct (run h p w) as [[? ?] ?];
      unfold result_of, world_of in Hr, Hw; cbn [fst snd] in Hr, Hw; subst
  end.

(** X10: on the reference service, started in any world where the
    connection string of the example is answered, the collection [users] of
    [test_db] is empty and the next client number is not in use, [main]
    returns after logging the identifier the driver generated, John Doe
    found with that identifier, and a listing that holds him alone; John Doe
    is then the one stored document and the sessions of the service are
    those it had before. *)
Theorem main_on_empty_collection (w : World) :
  let url := "mongodb://localhost:27017" in
  let cl := {| client_id := next_client w; client_uri := url |} in
  let users := Database_Collection (Client_Database cl "test_db") "users" in
  let john := {| ID := next_oid w; Name := "John Doe" |} in
  let out := run service main w in
  url ∈ reachable w →
  docs_of w users = [] →
  next_client w ∉ sessions w →
  result_of out
  = ([ Printf_result (Some {| InsertedID := SOid (next_oid w) |});
       Printf_user (Some john);
       Printf_users (Some [john]) ], Returned)
  ∧ docs_of (world_of out) users
    = [[("_id", SOid (next_oid w)); ("name", SStr "John Doe")]]
  ∧ sessions (world_of out) = sessions w.
Proof.
  cbv zeta. intros Hreach Hempty Hfresh.
  set (cl := {| client_id := next_client w;
                client_uri := "mongodb://localhost:27017" |}).
  set (db := Client_Database cl "test_db").
  set (users := Database_Collection db "users") in *.
  set (stored := [("_id", SOid (next_oid w)); ("name", SStr "John Doe")] : Raw).
  set (john := {| ID := next_oid w; Name := "John Doe" |}).
  assert (Hlive : ∀ w', sessions w' = next_client w :: sessions w →
                        reachable w' = reachable w → coll_error w' users = None).
  { intros w' Hs Hr. unfold coll_error, session_error.
    cbn [users db coll_db Database_Collection Client_Database db_client cl
         client_id client_uri].
    rewrite Hs, Hr, bool_decide_eq_true_2 by apply list_elem_of_here.
    by rewrite bool_decide_eq_true_2. }
  unfold main, mbind, Prog_bind. rewrite run_bind.
  use_run (NewMongoHandler_on_service (T := User) w "test_db"
             "mongodb://localhost:27017" eq_refl Hreach).
  cbn beta iota. unfold defer_in_main, mbind, Prog_bind. rewrite !run_bind.
  cbn [DB]. fold cl. fold db.
  set (w1 := open_session (bump_scope w)).
  assert (Hins : insert_raw (next_oid w1)
                   (marshal {| ID := NilObjectID; Name := "John Doe" |})
                   (docs_of w1 users) = inr (SOid (next_oid w), [stored])).
  { change (docs_of w1 users) with (docs_of w users).
    replace (docs_of w users) with (@nil Raw) by (symmetry; exact Hempty).
    by vm_compute. }
  use_run (SaveOne_on_service w1 db "users" _ _ _ (Hlive w1 eq_refl eq_refl) Hins).
  cbn beta iota. rewrite !run_bind.
  set (w2 := set_docs (bump_oid (bump_scope w1)) (Database_Collection db "users")
               [stored]).
  assert (Hdocs2 : docs_of w2 users = [stored]) by apply docs_of_set_docs.
  assert (Hfind : List.find (matches (T := User) (FilterD [("name", VString "John Doe")]))
                    (docs_of w2 users) = Some stored).
  { rewrite Hdocs2. by vm_compute. }
  use_run (FindOne_on_service w2 db "users" _ _ (Hlive w2 eq_refl eq_refl) Hfind).
  change (unmarshal stored) with (User_unmarshal stored).
  replace (User_unmarshal stored) with (john, @None error) by (by vm_compute).
  cbn beta iota. rewrite !run_bind.
  set (w3 := bump_scope w2).
  use_run (Find_on_service w3 db "users" [("name", VInt 1)] [] 0 10
             [("name", true)] (Hlive w3 eq_refl eq_refl) eq_refl ltac:(lia)).
  replace (found_batch w3 (Database_Collection db "users") [("name", true)]
             (FilterD (T := User) []) (Some 0) (Some 10)) with [stored].
  2: { unfold found_batch. change (docs_of w3 (Database_Collection db "users"))
         with (docs_of w2 users). rewrite Hdocs2. by vm_compute. }
  replace (decode_all [stored]) with ([john], @None error) by (by vm_compute).
  cbn beta iota. unfold mret, Prog_ret. cbn [run app snd fst].
  rewrite run_bind.
  set (w4 := bump_cursor (bump_scope w3)).
  use_run (Close_on_service (T := User) w4 {| DB := db |}
             ltac:(apply list_elem_of_here)).
  cbn [bind run]. unfold result_of, world_of. cbn [fst snd].
  split; [done |]. split.
  - change (docs_of (close_session _ (bump_scope w4)) users) with (docs_of w2 users).
    exact Hdocs2.
  - cbn [sessions close_session bump_scope w4 bump_cursor w3 w2 set_docs bump_oid
         w1 open_session Database_Client DB db Client_Database db_client cl client_id].
    rewrite filter_cons_False by (by intros Hn).
    clear -Hfresh. induction (sessions w) as [| s l IH]; [done |].
    rewrite filter_cons_True; [f_equal; apply IH | ]; set_solver.
Qed.

Section Compositions.
Context {T : Type} `{Document T} `{Codec T}.

(** What a SaveOne that reports no error found and did. *)
Lemma SaveOne_service_inv (w : World) (db : Database) (c : string) (doc : T) :
  let coll := Database_Collection db c in
  let stored := ensure_id (next_oid w) (marshal doc) in
  let out := run service (SaveOne db c doc) w in
  (result_of out).2 = None →
  coll_error w coll = None
  ∧ ∃ id, raw_get "_id" stored = Some id
          ∧ existsb (has_id id) (docs_of w coll) = false
          ∧ result_of out = (Some {| InsertedID := id |}, None)
          ∧ world_of out
            = set_docs (bump_oid (bump_scope w)) coll (docs_of w coll ++ [stored]).
Proof.
  cbv zeta. expose. cbn [service svc_WithTimeout bind run].
  unfold svc_InsertOne. rewrite coll_error_bump_scope, docs_of_bump_scope.
  destruct (coll_error w _) as [e |] eqn:Hlive; [done |].
  unfold insert_raw. cbn [next_oid bump_scope].
  destruct (raw_get "_id" (ensure_id _ _)) as [id |] eqn:Hid; [| done].
  destruct (existsb _ _) eqn:Hdup; [done |]. cbn. intros _.
  split; [done |]. by exists id.
Qed.

Lemma first_match_last (f : Filter T) (docs : list Raw) (r : Raw) :
  Forall (fun x => matches f x = false) docs → matches f r = true →
  first_match f (docs ++ [r]) = Some (length docs).
Proof.
  intros Hno Hr. induction Hno as [| x docs Hx _ IH]; cbn.
  - by rewrite Hr.
  - by rewrite Hx, IH.
Qed.

Lemma delete_last {A : Type} (l : list A) (x : A) :
  delete (length l) (l ++ [x]) = l.
Proof. induction l as [| y l IH]; [done |]. cbn. f_equal. exact IH. Qed.

(** X11: on the reference service, after a SaveOne that reported no error
    of a document sent with its identifier, DeleteOne with the document's
    identifier reports one deleted and the collection holds again exactly
    the documents it held before the SaveOne, in their order. *)
Theorem SaveOne_then_DeleteOne (w : World) (db : Database) (c : string)
  (doc : T) :
  let coll := Database_Collection db c in
  let out1 := run service (SaveOne db c doc) w in
  let out2 := run service (DeleteOne (T := T) db c (GetID doc)) (world_of out1) in
  (result_of out1).2 = None →
  raw_get "_id" (marshal doc) = Some (SOid (GetID doc)) →
  result_of out2 = (Some {| DeletedCount := 1 |}, None)
  ∧ docs_of (world_of out2) coll = docs_of w coll.
Proof.
  cbv zeta. intros Hok Hid.
  destruct (SaveOne_service_inv w db c doc Hok)
    as (Hlive & id & Hstored & Hnew & _ & Hw).
  unfold ensure_id in Hstored, Hw. rewrite Hid in Hstored, Hw. simplify_eq.
  rewrite Hw.
  set (docs := docs_of w (Database_Collection db c)) in *.
  set (w1 := set_docs _ _ _).
  assert (Hdocs1 : docs_of w1 (Database_Collection db c) = docs ++ [marshal doc])
    by apply docs_of_set_docs.
  assert (Hfirst : first_match (T := T) (FilterM {[ "_id" := VObjectID (GetID doc) ]})
                     (docs_of w1 (Database_Collection db c)) = Some (length docs)).
  { rewrite Hdocs1. apply first_match_last.
    - apply Forall_forall. intros r Hr. rewrite matches_id_M.
      apply bool_decide_eq_false_2. intros Hrid.
      assert (existsb (has_id (SOid (GetID doc))) docs = true) as Hex; [| congruence].
      apply existsb_exists. exists r. split; [by apply list_elem_of_In |].
      unfold has_id. by apply bool_decide_eq_true_2.
    - rewrite matches_id_M. by apply bool_decide_eq_true_2. }
  destruct (DeleteOne_on_service (T := T) w1 db c (GetID doc) (length docs))
    as [Hr Hw2]; [done | done |].
  cbv zeta in Hr, Hw2. rewrite Hr, Hw2. split; [done |].
  by rewrite docs_of_set_docs, Hdocs1, delete_last.
Qed.

(** The two absent cases again, with the world they leave. *)
Lemma UpdateOne_on_service_absent (w : World) (db : Database) (c : string)
  (doc : T) :
  coll_error w (Database_Collection db c) = None →
  Forall (fun r => raw_get "_id" r ≠ Some (SOid (GetID doc)))
    (docs_of w (Database_Collection db c)) →
  let out := run service (UpdateOne db c doc) w in
  result_of out
  = (Some {| MatchedCount := 0; ModifiedCount := 0;
             UpsertedCount := 0; UpsertedID := None |}, None)
  ∧ world_of out = bump_scope w.
Proof.
  intros Hlive Hno. cbv zeta.
  assert (Hnone : first_match (T := T) (FilterD [("_id", VObjectID (GetID doc))])
                    (docs_of w (Database_Collection db c)) = None).
  { apply first_match_None. eapply Forall_impl; [exact Hno |].
    intros r Hr. cbn beta in Hr.
    rewrite matches_id_D. by apply bool_decide_eq_false_2. }
  expose. cbn [service svc_WithTimeout bind run].
  unfold svc_UpdateOne. cbn [set_fields].
  rewrite bool_decide_eq_true_2 by done.
  cbn [fmap option_fmap option_map].
  rewrite coll_error_bump_scope, Hlive, docs_of_bump_scope, Hnone.
  by cbn [bind run service].
Qed.

Lemma DeleteOne_on_service_absent (w : World) (db : Database) (c : string)
  (id : ObjectID) :
  coll_error w (Database_Collection db c) = None →
  Forall (fun r => raw_get "_id" r ≠ Some (SOid id))
    (docs_of w (Database_Collection db c)) →
  let out := run (service (T := T)) (DeleteOne db c id) w in
  result_of out = (Some {| DeletedCount := 0 |}, None)
  ∧ world_of out = bump_scope w.
Proof.
  intros Hlive Hno. cbv zeta.
  assert (Hnone : first_match (T := T) (FilterM {[ "_id" := VObjectID id ]})
                    (docs_of w (Database_Collection db c)) = None).
  { apply first_match_None. eapply Forall_impl; [exact Hno |].
    intros r Hr. cbn beta in Hr.
    rewrite matches_id_M. by apply bool_decide_eq_false_2. }
  expose. cbn [service svc_WithTimeout bind run].
  unfold svc_DeleteOne.
  rewrite coll_error_bump_scope, Hlive, hint_ok_bump_scope.
  cbn [SetHint do_Hint]. rewrite (hint_ok_id (T := T)), docs_of_bump_scope, Hnone.
  by cbn [bind run service].
Qed.

End Compositions.

Section DeadHandles.
Context {T : Type} `{Document T} `{Codec T}.

Lemma unbox_all_to_interfaces (docs : list T) :
  unbox_all (to_interfaces docs) = Some docs.
Proof.
  rewrite to_interfaces_fmap. unfold unbox_all.
  induction docs as [| d docs IH]; [done |]. cbn. cbn in IH. by rewrite IH.
Qed.

(** X12: on the reference service, through a handle whose session is gone
    or whose connection string is not answered, every helper that works on
    a collection returns the error of the session and stores nothing; the
    one exception is SaveMany with no document, which the driver refuses
    before it looks at the session. *)
Theorem helpers_on_dead_handle (w : World) (e : error) (op : Operation T) :
  let out := run service (invoke op) w in
  match op with
  | Op_NewMongoHandler _ _ | Op_Close _ => True
  | Op_SaveMany db c [] =>
      result_of out = Some ErrEmptySlice ∧ store (world_of out) = store w
  | Op_CreateIndex db c _ | Op_SaveOne db c _ | Op_SaveMany db c _
  | Op_UpdateOne db c _ | Op_FindOne db c _ | Op_DeleteOne db c _
  | Op_Find db c _ _ _ _ =>
      coll_error w (Database_Collection db c) = Some e →
      result_of out = Some e ∧ store (world_of out) = store w
                      ∧ indexes (world_of out) = indexes w
  end.
Proof.
  cbv zeta.
  destruct op as [| db c m | db c d | db c ds | db c d | db c f | db c id
                  | db c sm f sk lm |]; try done;
    try destruct ds as [| d0 ds];
    try intros Hdead; cbn [invoke]; rewrite ?run_returned_error;
    unfold result_of, world_of; cbn [fst snd]; expose; cbv zeta;
    cbn [service svc_WithTimeout bind run].
  - unfold svc_CreateOne. by rewrite coll_error_bump_scope, Hdead.
  - unfold svc_InsertOne. by rewrite coll_error_bump_scope, Hdead.
  - done.
  - unfold svc_InsertMany. rewrite unbox_all_to_interfaces.
    rewrite to_interfaces_fmap. cbn [fmap list_fmap].
    by rewrite coll_error_bump_scope, Hdead.
  - unfold svc_UpdateOne. cbn [set_fields].
    rewrite bool_decide_eq_true_2 by done. cbn [fmap option_fmap option_map].
    by rewrite coll_error_bump_scope, Hdead.
  - unfold svc_FindOne. by rewrite coll_error_bump_scope, Hdead.
  - unfold svc_DeleteOne. by rewrite coll_error_bump_scope, Hdead.
  - unfold svc_Find. by rewrite coll_error_bump_scope, Hdead.
Qed.

(** What a NewMongoHandler that returns a handle did on the reference
    service. *)
Lemma NewMongoHandler_service_inv (w : World) (dbName url : string)
  (hd : MongoHandler) :
  let out := run (service (T := T)) (NewMongoHandler dbName url) w in
  (result_of out).1 = Some hd →
  hd = {| DB := Client_Database
                  {| client_id := next_client w; client_uri := url |} dbName |}
  ∧ url ∈ reachable w
  ∧ world_of out = open_session (bump_scope w).
Proof.
  cbv zeta. expose. cbn [service svc_WithTimeout bind run].
  unfold svc_Connect. cbn [ApplyURI co_uri from_option id].
  destruct (_ || _); cbn [bind run service]; [| done].
  unfold svc_Ping, session_error. world_simpl. cbn [client_id client_uri].
  rewrite bool_decide_eq_true_2 by apply list_elem_of_here.
  case_bool_decide as Hreach; cbn [bind run service]; [| done].
  unfold result_of, world_of. cbn. by intros [= <-].
Qed.

(** X13: on the reference service, Close on a handle that NewMongoHandler
    returned reports no error and ends the session; from then on the
    helpers through that handle report [ErrClientDisconnected] (the session
    is not looked up again by the handle), and a second Close reports
    [ErrClientDisconnected] too and changes nothing of the sessions. *)
Theorem use_after_Close (w : World) (dbName url c : string)
  (hd : MongoHandler) :
  let out1 := run (service (T := T)) (NewMongoHandler dbName url) w in
  let out2 := run (service (T := T)) (Close hd) (world_of out1) in
  let out3 := run (service (T := T)) (Close hd) (world_of out2) in
  (result_of out1).1 = Some hd →
  result_of out2 = None
  ∧ coll_error (world_of out2) (Database_Collection (DB hd) c)
    = Some ErrClientDisconnected
  ∧ result_of out3 = Some ErrClientDisconnected
  ∧ sessions (world_of out3) = sessions (world_of out2).
Proof.
  cbv zeta. intros Hhd.
  destruct (NewMongoHandler_service_inv w dbName url hd Hhd) as (-> & Hreach & ->).
  destruct (Close_on_service (T := T) (open_session (bump_scope w))
              {| DB := Client_Database
                         {| client_id := next_client w; client_uri := url |}
                         dbName |}) as [Hr Hw].
  { apply list_elem_of_here. }
  cbv zeta in Hr, Hw. rewrite Hr, Hw. split; [done |].
  cbn [DB Client_Database Database_Client db_client client_id].
  set (w2 := close_session _ _).
  assert (Hgone : next_client w ∉ sessions w2).
  { unfold w2. world_simpl. rewrite list_elem_of_filter. tauto. }
  split.
  - unfold coll_error, session_error.
    cbn [DB Client_Database Database_Collection coll_db db_client client_id].
    by rewrite bool_decide_eq_false_2.
  - expose. cbn [service svc_WithTimeout bind run].
    unfold svc_Disconnect. world_simpl.
    cbn [DB Client_Database Database_Client db_client client_id].
    rewrite bool_decide_eq_false_2 by done. by cbn.
Qed.

End DeadHandles.

Section UpdatingMore.
Context {T : Type} `{Document T} `{Codec T}.

Lemma UpdateOne_on_service_present (w : World) (db : Database) (c : string)
  (doc : T) (i : nat) (old : Raw) :
  let coll := Database_Collection db c in
  let new := raw_set_all (marshal doc) old in
  let out := run service (UpdateOne db c doc) w in
  coll_error w coll = None →
  first_match (T := T) (FilterD [("_id", VObjectID (GetID doc))]) (docs_of w coll)
    = Some i →
  docs_of w coll !! i = Some old →
  raw_get "_id" new = raw_get "_id" old →
  result_of out =
    (Some {| MatchedCount := 1;
             ModifiedCount := if bool_decide (new = old) then 0 else 1;
             UpsertedCount := 0; UpsertedID := None |}, None)
  ∧ world_of out = set_docs (bump_scope w) coll (<[i := new]> (docs_of w coll)).
Proof.
  cbv zeta. intros Hlive Hfirst Hold Hid.
  expose. cbn [service svc_WithTimeout bind run].
  unfold svc_UpdateOne. cbn [set_fields]. cbv zeta.
  rewrite bool_decide_eq_true_2 by done.
  cbn [fmap option_fmap option_map].
  rewrite coll_error_bump_scope, Hlive, !docs_of_bump_scope, Hfirst.
  unfold Raw in *. rewrite Hold.
  cbn [from_option id]. rewrite app_nil_r.
  rewrite (bool_decide_eq_true_2 _ Hid).
  by cbn [bind run service].
Qed.

Lemma first_match_Some (f : Filter T) (docs : list Raw) (i : nat) :
  first_match f docs = Some i →
  (∃ r, docs !! i = Some r ∧ matches f r = true)
  ∧ ∀ new, matches f new = true →
           List.find (matches f) (<[i := new]> docs) = Some new.
Proof.
  revert i. induction docs as [| r docs IH]; intros i; cbn [first_match]; [done |].
  destruct (matches f r) eqn:Hr.
  - intros [= <-]. split; [by exists r |]. intros new Hnew.
    cbn [insert list_insert List.find]. by rewrite Hnew.
  - destruct (first_match f docs) as [j |] eqn:Hj; cbn [fmap option_fmap option_map];
      [| done].
    intros [= <-]. destruct (IH j eq_refl) as [Hat Hfind].
    split; [done |]. intros new Hnew.
    cbn [insert list_insert List.find]. rewrite Hr. by apply Hfind.
Qed.

End UpdatingMore.

(** X14: on the reference service, a user of the example saved without
    identifier is stored under the identifier the driver generated, which
    reaches the caller in the insert result only: UpdateOne and DeleteOne
    with the value that was saved, whose identifier is still zero, match
    nothing and leave the collection as the SaveOne left it. *)
Theorem user_saved_without_identifier (w : World) (db : Database)
  (c name name' : string) :
  let coll := Database_Collection db c in
  let out1 :=
    run service (SaveOne db c {| ID := NilObjectID; Name := name |}) w in
  let out2 :=
    run service (UpdateOne db c {| ID := NilObjectID; Name := name' |})
      (world_of out1) in
  let out3 :=
    run service (DeleteOne (T := User) db c NilObjectID) (world_of out1) in
  (result_of out1).2 = None →
  next_oid w ≠ NilObjectID →
  Forall (fun r => raw_get "_id" r ≠ Some (SOid NilObjectID)) (docs_of w coll) →
  result_of out1 = (Some {| InsertedID := SOid (next_oid w) |}, None)
  ∧ docs_of (world_of out1) coll
    = docs_of w coll ++ [[("_id", SOid (next_oid w)); ("name", SStr name)]]
  ∧ result_of out2
    = (Some {| MatchedCount := 0; ModifiedCount := 0;
               UpsertedCount := 0; UpsertedID := None |}, None)
  ∧ docs_of (world_of out2) coll = docs_of (world_of out1) coll
  ∧ result_of out3 = (Some {| DeletedCount := 0 |}, None)
  ∧ docs_of (world_of out3) coll = docs_of (world_of out1) coll.
Proof.
  cbv zeta. intros Hok Hoid Hno.
  destruct (SaveOne_service_inv w db c _ Hok)
    as (Hlive & id & Hstored & _ & Hres & Hw).
  assert (Hst : ensure_id (next_oid w) (marshal {| ID := NilObjectID; Name := name |})
                = [("_id", SOid (next_oid w)); ("name", SStr name)]).
  { cbn [marshal User_Codec]. unfold User_marshal, ensure_id. cbn [ID Name].
    rewrite bool_decide_eq_true_2 by done. cbn [app].
    rewrite raw_get_cons, decide_False by done. by rewrite raw_get_nil. }
  rewrite Hst in Hstored, Hw. rewrite raw_get_cons, decide_True in Hstored by done.
  simplify_eq. rewrite Hres, Hw.
  set (docs := docs_of w (Database_Collection db c)) in *.
  set (w1 := set_docs _ _ _).
  assert (Hdocs1 : docs_of w1 (Database_Collection db c)
                   = docs ++ [[("_id", SOid (next_oid w)); ("name", SStr name)]])
    by apply docs_of_set_docs.
  assert (Hno1 : Forall (fun r => raw_get "_id" r ≠ Some (SOid NilObjectID))
                   (docs_of w1 (Database_Collection db c))).
  { rewrite Hdocs1. apply Forall_app. split; [done |]. constructor; [| done].
    rewrite raw_get_cons, decide_True by done. congruence. }
  split; [done |]. split; [done |].
  destruct (UpdateOne_on_service_absent w1 db c {| ID := NilObjectID; Name := name' |})
    as [Hr2 Hw2]; [done | done |].
  destruct (DeleteOne_on_service_absent (T := User) w1 db c NilObjectID)
    as [Hr3 Hw3]; [done | done |].
  cbv zeta in Hr2, Hw2, Hr3, Hw3. by rewrite Hr2, Hw2, Hr3, Hw3.
Qed.

(** X15: on the reference service, after an UpdateOne of a user of the
    example that carries its identifier and is stored, FindOne with the
    filter on that identifier returns exactly the user that was written,
    whatever other fields the stored document had. *)
Theorem UpdateOne_then_FindOne_user (w : World) (db : Database) (c : string)
  (u : User) :
  let coll := Database_Collection db c in
  let byid : bsonD User := [("_id", VObjectID (GetID u))] in
  let out1 := run service (UpdateOne db c u) w in
  let out2 := run service (FindOne db c byid) (world_of out1) in
  coll_error w coll = None →
  GetID u ≠ NilObjectID →
  Exists (fun r => raw_get "_id" r = Some (SOid (GetID u))) (docs_of w coll) →
  (∃ n, result_of out1
        = (Some {| MatchedCount := 1; ModifiedCount := n;
                   UpsertedCount := 0; UpsertedID := None |}, None))
  ∧ result_of out2 = (Some u, None)
  ∧ length (docs_of (world_of out2) coll) = length (docs_of w coll).
Proof.
  cbv zeta. intros Hlive Hid Hex.
  set (f := FilterD (T := User) [("_id", VObjectID (GetID u))]).
  destruct (first_match f (docs_of w (Database_Collection db c))) as [i |] eqn:Hfirst.
  2: { exfalso. apply Exists_exists in Hex as (r & Hin & Hr).
       revert Hfirst. clear -Hin Hr.
       induction Hin as [r docs | r x docs Hin IH]; cbn [first_match].
       - unfold f. rewrite (matches_id_D (T := User)), bool_decide_eq_true_2; done.
       - destruct (matches f x); [done |]. destruct (first_match f docs); [done |].
         auto. }
  destruct (first_match_Some f _ i Hfirst) as [(old & Hold & Hm) Hfind].
  unfold f in Hm. rewrite (matches_id_D (T := User)) in Hm.
  apply bool_decide_eq_true_1 in Hm.
  set (new := raw_set_all (marshal u) old).
  assert (Hnew : ∀ k, raw_get k new
                      = match raw_get k (reverse (marshal u)) with
                        | Some s => Some s
                        | None => raw_get k old
                        end) by (intros k; apply raw_get_raw_set_all).
  assert (Hmu : marshal u = [("_id", SOid (ID u)); ("name", SStr (Name u))]).
  { cbn [marshal User_Codec]. unfold User_marshal.
    by rewrite bool_decide_eq_false_2. }
  assert (Hnew_id : raw_get "_id" new = Some (SOid (ID u))).
  { rewrite Hnew, Hmu. cbn [reverse rev_append].
    rewrite !raw_get_cons. rewrite decide_False by done. by rewrite decide_True. }
  assert (Hnew_name : raw_get "name" new = Some (SStr (Name u))).
  { rewrite Hnew, Hmu. cbn [reverse rev_append].
    rewrite !raw_get_cons. by rewrite decide_True. }
  destruct (UpdateOne_on_service_present w db c u i old) as [Hr1 Hw1];
    [done | done | done | exact (eq_trans Hnew_id (eq_sym Hm)) |].
  cbv zeta in Hr1, Hw1. fold new in Hr1, Hw1. rewrite Hr1, Hw1.
  split; [by eexists |].
  set (w1 := set_docs _ _ _).
  assert (Hdocs1 : docs_of w1 (Database_Collection db c)
                   = <[i := new]> (docs_of w (Database_Collection db c)))
    by apply docs_of_set_docs.
  destruct (FindOne_on_service w1 db c [("_id", VObjectID (GetID u))] new)
    as [Hr2 Hw2]; [done | |].
  { rewrite Hdocs1. apply Hfind. unfold f. rewrite (matches_id_D (T := User)).
    by apply bool_decide_eq_true_2. }
  cbv zeta in Hr2, Hw2. rewrite Hr2, Hw2. split.
  - cbn [unmarshal User_Codec]. unfold User_unmarshal.
    rewrite Hnew_id, Hnew_name. by destruct u.
  - change (docs_of (bump_scope w1) (Database_Collection db c))
      with (docs_of w1 (Database_Collection db c)).
    by rewrite Hdocs1, length_insert.
Qed.

(** ** Instances on the example *)

(** X2, witness: the handler of the example, made and closed on the
    reference service. *)
Lemma Close_disconnects_connected_client_witness :
  let url := "mongodb://localhost:27017" in
  let out1 := run service (NewMongoHandler (T := User) "test_db" url) fresh in
  let out2 := run service (Close (T := User) {| DB := test_db |}) (world_of out1) in
  ∃ ctx1 cl ctx2 closed,
    entry (Mongo_Connect ctx1 (ApplyURI url options_Client)) (inr cl)
      ∈ trace_of out1
    ∧ trace_of out2 =
        [ entry (Ctx_WithTimeout Background (10 * Second)) ctx2;
          entry (Client_Disconnect ctx2 cl) closed;
          entry (Ctx_cancel ctx2) tt ]
    ∧ result_of out2 = closed.
Proof.
  cbv zeta.
  assert (Hhd : (result_of (run service
                   (NewMongoHandler (T := User) "test_db"
                      "mongodb://localhost:27017") fresh)).1
                = Some {| DB := test_db |}) by (by vm_compute).
  exact (Close_disconnects_connected_client service fresh "test_db"
           "mongodb://localhost:27017" {| DB := test_db |} Hhd).
Defined.

(** X10, witness: [main] on the service that has nothing stored. *)
Lemma main_on_empty_collection_witness :
  result_of (run service main fresh)
  = ([ Printf_result (Some {| InsertedID := SOid 1000 |});
       Printf_user (Some {| ID := 1000; Name := "John Doe" |});
       Printf_users (Some [{| ID := 1000; Name := "John Doe" |}]) ], Returned).
Proof.
  assert (Hreach : "mongodb://localhost:27017" ∈ reachable fresh)
    by apply list_elem_of_here.
  assert (Hempty : docs_of fresh
                     (Database_Collection
                        (Client_Database
                           {| client_id := next_client fresh;
                              client_uri := "mongodb://localhost:27017" |}
                           "test_db") "users") = []) by (by vm_compute).
  assert (Hfree : next_client fresh ∉ sessions fresh) by apply not_elem_of_nil.
  pose proof (main_on_empty_collection fresh Hreach Hempty Hfree) as (Hres & _).
  exact Hres.
Defined.

(** X11, witness: Jane Roe is saved with her identifier and deleted. *)
Lemma SaveOne_then_DeleteOne_witness :
  let coll := Database_Collection test_db "users" in
  let out1 := run service (SaveOne test_db "users" Jane) stocked in
  let out2 := run service (DeleteOne (T := User) test_db "users" 77)
                (world_of out1) in
  result_of out2 = (Some {| DeletedCount := 1 |}, None)
  ∧ docs_of (world_of out2) coll = docs_of stocked coll.
Proof.
  cbv zeta.
  assert (Hok : (result_of (run service (SaveOne test_db "users" Jane) stocked)).2
                = None) by (by vm_compute).
  assert (Hid : raw_get "_id" (marshal Jane) = Some (SOid (GetID Jane)))
    by (by vm_compute).
  exact (SaveOne_then_DeleteOne stocked test_db "users" Jane Hok Hid).
Defined.

(** X12, witness: a FindOne through the handle of the example before any
    session is open. *)
Lemma helpers_on_dead_handle_witness :
  let out := run service
               (invoke (Op_FindOne (T := User) test_db "users"
                          [("name", VString "John Doe")])) fresh in
  result_of out = Some ErrClientDisconnected
  ∧ store (world_of out) = store fresh
  ∧ indexes (world_of out) = indexes fresh.
Proof.
  cbv zeta.
  assert (Hdead : coll_error fresh (Database_Collection test_db "users")
                  = Some ErrClientDisconnected) by (by vm_compute).
  exact (helpers_on_dead_handle fresh ErrClientDisconnected
           (Op_FindOne (T := User) test_db "users" [("name", VString "John Doe")])
           Hdead).
Defined.

(** X13, witness: the handle of the example, closed twice. *)
Lemma use_after_Close_witness :
  let hd := {| DB := test_db |} in
  let out2 := run service (Close (T := User) hd) connected in
  let out3 := run service (Close (T := User) hd) (world_of out2) in
  result_of out2 = None ∧ result_of out3 = Some ErrClientDisconnected.
Proof.
  cbv zeta.
  assert (Hhd : (result_of (run service
                   (NewMongoHandler (T := User) "test_db"
                      "mongodb://localhost:27017") fresh)).1
                = Some {| DB := test_db |}) by (by vm_compute).
  pose proof (use_after_Close (T := User) fresh "test_db"
                "mongodb://localhost:27017" "users" {| DB := test_db |} Hhd)
    as (Hfirst & _ & Hsecond & _).
  exact (conj Hfirst Hsecond).
Defined.

(** X14, witness: John Doe of the example, saved without identifier. *)
Lemma user_saved_without_identifier_witness :
  let out1 := run service (SaveOne test_db "users" John) connected in
  let out2 := run service (UpdateOne test_db "users"
                             {| ID := NilObjectID; Name := "Johnny Doe" |})
                (world_of out1) in
  result_of out1 = (Some {| InsertedID := SOid 1000 |}, None)
  ∧ result_of out2
    = (Some {| MatchedCount := 0; ModifiedCount := 0;
               UpsertedCount := 0; UpsertedID := None |}, None).
Proof.
  cbv zeta.
  assert (Hok : (result_of (run service (SaveOne test_db "users" John)
                              connected)).2 = None) by (by vm_compute).
  assert (Hoid : next_oid connected ≠ NilObjectID) by (by vm_compute).
  assert (Hno : Forall (fun r => raw_get "_id" r ≠ Some (SOid NilObjectID))
                  (docs_of connected (Database_Collection test_db "users")))
    by (by vm_compute; constructor).
  pose proof (user_saved_without_identifier connected test_db "users"
                "John Doe" "Johnny Doe" Hok Hoid Hno)
    as (Hres1 & _ & Hres2 & _).
  exact (conj Hres1 Hres2).
Defined.

(** X15, witness: John Doe as he is stored, renamed and found again. *)
Lemma UpdateOne_then_FindOne_user_witness :
  let u := {| ID := 1000; Name := "Johnny Doe" |} in
  let out1 := run service (UpdateOne test_db "users" u) stocked in
  let out2 := run service
                (FindOne test_db "users" [("_id", VObjectID 1000)])
                (world_of out1) in
  result_of out2 = (Some u, None).
Proof.
  cbv zeta.
  assert (Hlive : coll_error stocked (Database_Collection test_db "users") = None)
    by (by vm_compute).
  assert (Hid : GetID {| ID := 1000; Name := "Johnny Doe" |} ≠ NilObjectID)
    by (by vm_compute).
  assert (Hex : Exists (fun r => raw_get "_id" r
                          = Some (SOid (GetID {| ID := 1000; Name := "Johnny Doe" |})))
                  (docs_of stocked (Database_Collection test_db "users")))
    by (rewrite stocked_world; constructor; by vm_compute).
  pose proof (UpdateOne_then_FindOne_user stocked test_db "users"
                {| ID := 1000; Name := "Johnny Doe" |} Hlive Hid Hex)
    as (_ & Hres & _).
  exact Hres.
Defined.
